(** * AgentForge: the workflow executor and its condition evaluator

    A shallow embedding of [backend/src/services/agentExecutor.ts] (class
    [AgentExecutor] and [executeAgentWorkflow]) and of the [apiCallNode]
    handler, together with the properties of the engine that the design
    document states.

    Modelling conventions.
    - JavaScript values are the JSON-like universe [JsValue]: [undefined],
      [null], booleans, numbers, strings and plain objects (association
      lists of own properties).  Arrays, functions and members inherited
      from a prototype are outside the universe.
    - Strings are sequences of 8-bit code units.
    - A finite number is kept as the exact rational its literal denotes;
      rounding to binary64 is not modelled.  [NaN] and the two infinities
      are explicit.
    - The persistence layer (the Mongoose [Execution] model) is modelled by
      the journal of the writes the code issues; every write succeeds.
    - Everything a handler can observe outside its arguments (network,
      clock, random source) lives in an abstract [World].
    - [executeNode] recurses without a visited set; the model bounds the
      depth of the recursion by a budget and reports its exhaustion.
    - [executeNode] calls the handlers imported from [./nodes/]; of these
      only [apiCallNode] is among the sources, the three others are fields
      of the runtime.  Of the methods of the class that no call reaches,
      [executeApiCall], [executeCondition] and [executeTrigger] are
      embedded for comparison; [executeSendEmail] and [executeAiProcess]
      are not. *)

From Stdlib Require Import String Ascii List ZArith QArith Bool Arith Lia.
From Stdlib Require Import DecimalString.
Import ListNotations.
Local Close Scope Q_scope.
Local Open Scope string_scope.
Local Open Scope list_scope.

Set Implicit Arguments.
Set Warnings "-register-all".

(* ================================================================= *)
(** ** Strings: the [String.prototype] methods the evaluator calls *)

Module JsString.

Definition quote1 : ascii := ascii_of_nat 39.
Definition quote2 : ascii := ascii_of_nat 34.

(** White space and line terminators below code unit 256. *)
Definition isWhiteSpace (c : ascii) : bool :=
  let n := nat_of_ascii c in
  ((9 <=? n)%nat && (n <=? 13)%nat) || (n =? 32)%nat || (n =? 160)%nat.

(** [s.includes(pat)] *)
Fixpoint includes (s pat : string) : bool :=
  String.prefix pat s ||
  match s with
  | EmptyString => false
  | String _ rest => includes rest pat
  end.

(** The scanning loop of [s.split(sep)] for a non-empty separator:
    [skip] counts the code units of a separator occurrence still to be
    consumed, [cur] is the piece being accumulated. *)
Fixpoint split_go (sep : string) (skip : nat) (cur s : string) : list string :=
  match s with
  | EmptyString => [cur]
  | String c rest =>
      match skip with
      | S k => split_go sep k cur rest
      | O =>
          if String.prefix sep s
          then cur :: split_go sep (String.length sep - 1) EmptyString rest
          else split_go sep 0 (cur ++ String c EmptyString) rest
      end
  end.

(** [s.split(sep)], [sep] not empty. *)
Definition split (s sep : string) : list string :=
  split_go sep 0 EmptyString s.

Fixpoint trimStart (s : string) : string :=
  match s with
  | EmptyString => EmptyString
  | String c rest => if isWhiteSpace c then trimStart rest else s
  end.

Fixpoint trimEnd (s : string) : string :=
  match s with
  | EmptyString => EmptyString
  | String c rest =>
      match trimEnd rest with
      | EmptyString => if isWhiteSpace c then EmptyString else String c EmptyString
      | r => String c r
      end
  end.

(** [s.trim()] *)
Definition trim (s : string) : string := trimEnd (trimStart s).

Definition isQuote (c : ascii) : bool :=
  Ascii.eqb c quote1 || Ascii.eqb c quote2.

(** [s.replace(re, empty)] where the global pattern [re] matches a
    single or a double quote character: every quote is deleted. *)
Fixpoint removeQuotes (s : string) : string :=
  match s with
  | EmptyString => EmptyString
  | String c rest =>
      if isQuote c then removeQuotes rest else String c (removeQuotes rest)
  end.

(** Membership of a code unit in a string. *)
Fixpoint mem (c : ascii) (s : string) : bool :=
  match s with
  | EmptyString => false
  | String d rest => Ascii.eqb c d || mem c rest
  end.

End JsString.

(* ================================================================= *)
(** ** Numbers and [Number(string)] *)

Inductive JsNumber : Type :=
| NaN
| PosInf
| NegInf
| Fin (q : Q).

Module JsNumber.

Definition isNaN (n : JsNumber) : bool :=
  match n with NaN => true | _ => false end.

Definition ofZ (z : Z) : JsNumber := Fin (inject_Z z).

Definition neg (n : JsNumber) : JsNumber :=
  match n with
  | NaN => NaN
  | PosInf => NegInf
  | NegInf => PosInf
  | Fin q => Fin (Qopp q)
  end.

(** [x === y] on numbers. *)
Definition eqb (x y : JsNumber) : bool :=
  match x, y with
  | Fin a, Fin b => Qeq_bool a b
  | PosInf, PosInf => true
  | NegInf, NegInf => true
  | _, _ => false
  end.

(** [Number::lessThan]: [None] is the "undefined" answer given when an
    operand is [NaN]. *)
Definition lessThan (x y : JsNumber) : option bool :=
  match x, y with
  | NaN, _ | _, NaN => None
  | Fin a, Fin b => Some (negb (Qle_bool b a))
  | NegInf, NegInf => Some false
  | NegInf, _ => Some true
  | _, NegInf => Some false
  | PosInf, _ => Some false
  | Fin _, PosInf => Some true
  end.

Definition digitOf (radix : nat) (c : ascii) : option Z :=
  let n := nat_of_ascii c in
  let d :=
    if (48 <=? n)%nat && (n <=? 57)%nat then Some (n - 48)
    else if (97 <=? n)%nat && (n <=? 102)%nat then Some (n - 87)
    else if (65 <=? n)%nat && (n <=? 70)%nat then Some (n - 55)
    else None in
  match d with
  | Some k => if (k <? radix)%nat then Some (Z.of_nat k) else None
  | None => None
  end.

(** The longest prefix of digits: its value, its length, the rest. *)
Fixpoint spanDigits (radix : nat) (s : string) (acc : Z) (n : nat)
  : Z * nat * string :=
  match s with
  | EmptyString => (acc, n, s)
  | String c rest =>
      match digitOf radix c with
      | Some d => spanDigits radix rest (acc * Z.of_nat radix + d) (S n)
      | None => (acc, n, s)
      end
  end.

(** [0x..], [0o..], [0b..] bodies: one digit at least, nothing after. *)
Definition parseRadix (radix : nat) (s : string) : JsNumber :=
  match spanDigits radix s 0 0 with
  | (v, S _, EmptyString) => ofZ v
  | _ => NaN
  end.

Definition isExpMark (c : ascii) : bool :=
  Ascii.eqb c "e"%char || Ascii.eqb c "E"%char.

(** [ExponentPart]: optional sign, one digit at least, nothing after. *)
Definition parseExponent (s : string) : option Z :=
  let '(sign, body) :=
    match s with
    | String "+"%char r => (1%Z, r)
    | String "-"%char r => ((-1)%Z, r)
    | _ => (1%Z, s)
    end in
  match spanDigits 10 body 0 0 with
  | (v, S _, EmptyString) => Some (sign * v)%Z
  | _ => None
  end.

(** [StrUnsignedDecimalLiteral] other than [Infinity]. *)
Definition parseUnsignedDecimal (s : string) : JsNumber :=
  let '(ip, ni, r1) := spanDigits 10 s 0 0 in
  let '(fp, nf, r2) :=
    match r1 with
    | String "."%char r => spanDigits 10 r 0 0
    | _ => (0%Z, O, r1)
    end in
  if (ni =? 0)%nat && (nf =? 0)%nat then NaN
  else
    let mant := (ip * 10 ^ Z.of_nat nf + fp)%Z in
    let scaled (e : Z) :=
      Fin (Qmult (inject_Z mant) (Qpower (inject_Z 10) (e - Z.of_nat nf))) in
    match r2 with
    | EmptyString => scaled 0%Z
    | String c r3 =>
        if isExpMark c
        then match parseExponent r3 with
             | Some e => scaled e
             | None => NaN
             end
        else NaN
    end.

Definition parseUnsigned (s : string) : JsNumber :=
  if String.eqb s "Infinity" then PosInf else parseUnsignedDecimal s.

(** [StringToNumber]: what [Number(s)] returns for a string. *)
Definition ofString (s : string) : JsNumber :=
  match JsString.trim s with
  | EmptyString => ofZ 0
  | String "+"%char r => parseUnsigned r
  | String "-"%char r => neg (parseUnsigned r)
  | String "0"%char (String "x"%char r)
  | String "0"%char (String "X"%char r) => parseRadix 16 r
  | String "0"%char (String "o"%char r)
  | String "0"%char (String "O"%char r) => parseRadix 8 r
  | String "0"%char (String "b"%char r)
  | String "0"%char (String "B"%char r) => parseRadix 2 r
  | t => parseUnsigned t
  end.

End JsNumber.

(* ================================================================= *)
(** ** Values, errors and completions *)

Inductive JsValue : Type :=
| JUndefined
| JNull
| JBool (b : bool)
| JNum (n : JsNumber)
| JStr (s : string)
| JObj (props : list (string * JsValue)).

(** What a [throw] carries: the constructor and the [message]. *)
Inductive JsError : Type :=
| ErrorOf (message : string)
| TypeErrorOf (message : string).

Definition message (e : JsError) : string :=
  match e with
  | ErrorOf m => m
  | TypeErrorOf m => m
  end.

(** How the evaluation of an expression or a call ends. *)
Inductive Completion (A : Type) : Type :=
| Normal (a : A)
| Throw (e : JsError).

Arguments Normal {A} a.
Arguments Throw {A} e.

Module JsObject.

(** Own property lookup in a property list; the first entry of a key is
    the one in force. *)
Fixpoint lookup (k : string) (ps : list (string * JsValue)) : option JsValue :=
  match ps with
  | [] => None
  | (k', v) :: rest => if String.eqb k k' then Some v else lookup k rest
  end.

(** Assignment of one property: an existing key keeps its place. *)
Fixpoint set (k : string) (v : JsValue) (ps : list (string * JsValue))
  : list (string * JsValue) :=
  match ps with
  | [] => [(k, v)]
  | (k', v') :: rest =>
      if String.eqb k k' then (k, v) :: rest else (k', v') :: set k v rest
  end.

(** A canonical array index: [0], or digits without a leading zero. *)
Definition parseIndex (k : string) : option nat :=
  match k with
  | EmptyString => None
  | String "0"%char EmptyString => Some O
  | String "0"%char _ => None
  | _ =>
      match JsNumber.spanDigits 10 k 0 0 with
      | (v, _, EmptyString) => Some (Z.to_nat v)
      | _ => None
      end
  end.

(** The own properties of a string value, indexed from [i]. *)
Fixpoint charProps (i : nat) (s : string) : list (nat * string) :=
  match s with
  | EmptyString => []
  | String c rest => (i, String c EmptyString) :: charProps (S i) rest
  end.

(** [v[k]] for a [v] that is neither [undefined] nor [null]. *)
Definition get (v : JsValue) (k : string) : JsValue :=
  match v with
  | JObj ps =>
      match lookup k ps with
      | Some x => x
      | None => JUndefined
      end
  | JStr s =>
      if String.eqb k "length"
      then JNum (JsNumber.ofZ (Z.of_nat (String.length s)))
      else match parseIndex k with
           | Some i =>
               match String.get i s with
               | Some c => JStr (String c EmptyString)
               | None => JUndefined
               end
           | None => JUndefined
           end
  | _ => JUndefined
  end.

(** [v?.[k]] *)
Definition optGet (v : JsValue) (k : string) : JsValue :=
  match v with
  | JUndefined | JNull => JUndefined
  | _ => get v k
  end.

(** [a || b] *)
Definition truthy (v : JsValue) : bool :=
  match v with
  | JUndefined | JNull => false
  | JBool b => b
  | JNum NaN => false
  | JNum (Fin q) => negb (Qeq_bool q 0)
  | JNum _ => true
  | JStr EmptyString => false
  | JStr _ => true
  | JObj _ => true
  end.

Definition orElse (a b : JsValue) : JsValue := if truthy a then a else b.

Definition indexKey (i : nat) : string :=
  NilZero.string_of_uint (Nat.to_uint i).

(** The properties [{...v}] copies: the own properties of an object,
    the indexed code units of a string, nothing for the rest. *)
Definition spread (v : JsValue) : list (string * JsValue) :=
  match v with
  | JObj ps => ps
  | JStr s => map (fun p => (indexKey (fst p), JStr (snd p))) (charProps 0 s)
  | _ => []
  end.

(** [{...v, k: x}] *)
Definition spreadWith (v : JsValue) (k : string) (x : JsValue) : JsValue :=
  JObj (set k x (spread v)).

End JsObject.

(* ================================================================= *)
(** ** The comparison operators of the language *)

Module JsCompare.

(** [ToPrimitive] on the universe: a plain object answers through the
    inherited [toString], unless an own [toString] property (never
    callable here) hides it. *)
Definition toPrimitive (v : JsValue) : Completion JsValue :=
  match v with
  | JObj ps =>
      match JsObject.lookup "toString" ps with
      | Some _ => Throw (TypeErrorOf "Cannot convert object to primitive value")
      | None => Normal (JStr "[object Object]")
      end
  | _ => Normal v
  end.

(** [ToNumber] of a primitive. *)
Definition toNumber (v : JsValue) : JsNumber :=
  match v with
  | JUndefined => NaN
  | JNull => JsNumber.ofZ 0
  | JBool true => JsNumber.ofZ 1
  | JBool false => JsNumber.ofZ 0
  | JNum n => n
  | JStr s => JsNumber.ofString s
  | JObj _ => NaN
  end.

Definition boolAsNumber (v : JsValue) : JsValue :=
  match v with
  | JBool _ => JNum (toNumber v)
  | _ => v
  end.

(** [IsLooselyEqual] once booleans are numbers and objects primitives. *)
Definition looseEqPrim (x y : JsValue) : bool :=
  match x, y with
  | JUndefined, JUndefined | JUndefined, JNull
  | JNull, JUndefined | JNull, JNull => true
  | JNum a, JNum b => JsNumber.eqb a b
  | JStr a, JStr b => String.eqb a b
  | JNum a, JStr b => JsNumber.eqb a (JsNumber.ofString b)
  | JStr a, JNum b => JsNumber.eqb (JsNumber.ofString a) b
  | _, _ => false
  end.

(** [x == y].  Two objects are equal when they are the same reference;
    an operand read from the context and a parsed literal never are. *)
Definition looseEq (x y : JsValue) : Completion bool :=
  let l := boolAsNumber x in
  let r := boolAsNumber y in
  match l, r with
  | JObj _, JObj _ => Normal false
  | JObj _, JNum _ | JObj _, JStr _ =>
      match toPrimitive l with
      | Normal p => Normal (looseEqPrim p r)
      | Throw e => Throw e
      end
  | JNum _, JObj _ | JStr _, JObj _ =>
      match toPrimitive r with
      | Normal p => Normal (looseEqPrim l p)
      | Throw e => Throw e
      end
  | _, _ => Normal (looseEqPrim l r)
  end.

(** [IsLessThan] on primitives: [None] is its "undefined" answer. *)
Definition lessThanPrim (x y : JsValue) : option bool :=
  match x, y with
  | JStr a, JStr b => Some (String.ltb a b)
  | _, _ => JsNumber.lessThan (toNumber x) (toNumber y)
  end.

(** [IsLessThan x y] after [ToPrimitive] of [first] then of [second]
    (the operands in source order). *)
Definition lessThan (first second : JsValue) (swap : bool)
  : Completion (option bool) :=
  match toPrimitive first with
  | Throw e => Throw e
  | Normal p1 =>
      match toPrimitive second with
      | Throw e => Throw e
      | Normal p2 =>
          Normal (if swap then lessThanPrim p2 p1 else lessThanPrim p1 p2)
      end
  end.

Definition isTrue (r : option bool) : bool :=
  match r with Some true => true | _ => false end.

Definition isFalse (r : option bool) : bool :=
  match r with Some false => true | _ => false end.

Definition mapC {A B} (f : A -> B) (c : Completion A) : Completion B :=
  match c with
  | Normal a => Normal (f a)
  | Throw e => Throw e
  end.

(** [l < r], [l > r], [l <= r], [l >= r] *)
Definition lt (l r : JsValue) := mapC isTrue (lessThan l r false).
Definition gt (l r : JsValue) := mapC isTrue (lessThan l r true).
Definition le (l r : JsValue) := mapC isFalse (lessThan l r true).
Definition ge (l r : JsValue) := mapC isFalse (lessThan l r false).

End JsCompare.

(* ================================================================= *)
(** ** The condition evaluator of [AgentExecutor] *)

(** [getContextValue]: a dotted key walks the context with [?.]. *)
Definition getContextValue (key : string) (context : JsValue) : JsValue :=
  fold_left JsObject.optGet (JsString.split key ".") context.

(** [parseValue] *)
Definition parseValue (value : string) : JsValue :=
  let value := JsString.removeQuotes value in
  if negb (JsNumber.isNaN (JsNumber.ofString value))
  then JNum (JsNumber.ofString value)
  else if String.eqb value "true" then JBool true
  else if String.eqb value "false" then JBool false
  else JStr value.

(** [compareValues] *)
Definition compareValues (left right : JsValue) (operator : string)
  : Completion bool :=
  if String.eqb operator "==" then JsCompare.looseEq left right
  else if String.eqb operator "!=" then JsCompare.mapC negb (JsCompare.looseEq left right)
  else if String.eqb operator ">" then JsCompare.gt left right
  else if String.eqb operator "<" then JsCompare.lt left right
  else if String.eqb operator ">=" then JsCompare.ge left right
  else if String.eqb operator "<=" then JsCompare.le left right
  else Normal false.

(** The operator table of [evaluateSimpleCondition], in source order. *)
Definition operators : list string := ["=="; "!="; ">"; "<"; ">="; "<="].

(** [const [left, right] = condition.split(op).map(s => s.trim())] *)
Definition splitOperands (condition op : string) : list string :=
  map JsString.trim (JsString.split condition op).

(** The body of the loop for one operator that the condition includes.
    With no second piece [right] is [undefined] and [parseValue] fails on
    its [replace]. *)
Definition applyOperator (condition : string) (context : JsValue) (op : string)
  : Completion bool :=
  match splitOperands condition op with
  | lhs :: rhs :: _ =>
      compareValues (getContextValue lhs context) (parseValue rhs) op
  | _ =>
      Throw (TypeErrorOf "Cannot read properties of undefined (reading 'replace')")
  end.

(** The [for (const op of operators)] loop. *)
Fixpoint evaluateWith (ops : list string) (condition : string) (context : JsValue)
  : Completion bool :=
  match ops with
  | [] => Normal false
  | op :: rest =>
      if JsString.includes condition op
      then applyOperator condition context op
      else evaluateWith rest condition context
  end.

(** [evaluateSimpleCondition] *)
Definition evaluateSimpleCondition (condition : string) (context : JsValue)
  : Completion bool :=
  evaluateWith operators condition context.

(** The operator the loop stops at, if any. *)
Definition matchedOperator (condition : string) : option string :=
  find (JsString.includes condition) operators.

(* ================================================================= *)
(** ** The workflow graph and the execution document *)

Module Node.
(** [interface Node] *)
Record t : Type := make { id : string; type : string; data : JsValue }.

(** The node as the object a handler receives. *)
Definition toJs (n : t) : JsValue :=
  JObj [("id", JStr (id n)); ("type", JStr (type n)); ("data", data n)].
End Node.

Module Edge.
(** [interface Edge] *)
Record t : Type := make { id : string; source : string; target : string }.
End Edge.

Inductive Status : Type := running | completed | failed.

Inductive Level : Type := info | warning | error.

(** A log message: a fixed text, or a template literal kept as its text
    and the value interpolated after it. *)
Inductive Message : Type :=
| Text (s : string)
| TextWith (s : string) (v : JsValue).

Record LogEntry : Type := {
  timestamp : Z;
  level : Level;
  logMessage : Message;
  logData : option JsValue
}.

(** [interface IExecution] *)
Record Execution : Type := {
  agentId : string;
  userId : string;
  status : Status;
  startTime : Z;
  endTime : option Z;
  duration : option Z;
  results : list JsValue;
  logs : list LogEntry;
  errorMessage : option string
}.

(** The writes issued against the execution document, oldest first:
    the first [save()], a later [save()] (it writes the paths assigned on
    the local document: status, endTime, duration, error), and the two
    [findByIdAndUpdate] pushes. *)
Inductive DbWrite : Type :=
| Insert (doc : Execution)
| Save (doc : Execution)
| PushLog (entry : LogEntry)
| PushResult (result : JsValue).

Module Db.

Definition apply (stored : option Execution) (w : DbWrite) : option Execution :=
  match w, stored with
  | Insert doc, _ => Some doc
  | Save doc, Some s =>
      Some {| agentId := agentId s; userId := userId s;
              status := status doc; startTime := startTime s;
              endTime := endTime doc; duration := duration doc;
              results := results s; logs := logs s;
              errorMessage := errorMessage doc |}
  | PushLog e, Some s =>
      Some {| agentId := agentId s; userId := userId s;
              status := status s; startTime := startTime s;
              endTime := endTime s; duration := duration s;
              results := results s; logs := logs s ++ [e];
              errorMessage := errorMessage s |}
  | PushResult r, Some s =>
      Some {| agentId := agentId s; userId := userId s;
              status := status s; startTime := startTime s;
              endTime := endTime s; duration := duration s;
              results := results s ++ [r]; logs := logs s;
              errorMessage := errorMessage s |}
  | _, None => None
  end.

(** The document as stored after a journal of writes. *)
Definition stored (journal : list DbWrite) : option Execution :=
  fold_left apply journal None.

(** The status values the document goes through, one per write that
    assigns the status. *)
Fixpoint statusHistory (journal : list DbWrite) : list Status :=
  match journal with
  | [] => []
  | Insert doc :: rest => status doc :: statusHistory rest
  | Save doc :: rest => status doc :: statusHistory rest
  | _ :: rest => statusHistory rest
  end.

(** The results pushed, oldest first. *)
Fixpoint pushedResults (journal : list DbWrite) : list JsValue :=
  match journal with
  | [] => []
  | PushResult r :: rest => r :: pushedResults rest
  | _ :: rest => pushedResults rest
  end.

(** The log entries pushed, oldest first. *)
Fixpoint pushedLogs (journal : list DbWrite) : list LogEntry :=
  match journal with
  | [] => []
  | PushLog e :: rest => e :: pushedLogs rest
  | _ :: rest => pushedLogs rest
  end.

End Db.

(* ================================================================= *)
(** ** The runtime: clock, random source, HTTP client, imported handlers *)

Record AxiosRequest : Type := {
  reqMethod : JsValue;
  reqUrl : JsValue;
  reqData : JsValue;
  reqHeaders : JsValue;
  reqTimeout : option Z
}.

Record AxiosResponse : Type := {
  resStatus : JsValue;
  resData : JsValue;
  resHeaders : JsValue
}.

(** The collaborators of the executor.  [triggerNode], [conditionNode]
    and [aiActionNode] are the handlers imported from [./nodes/]; they get
    the node and the context and nothing of the executor. *)
Class Runtime (World : Type) : Type := {
  now : World -> Z * World;
  toISOString : Z -> string;
  mathRandom : World -> Q * World;
  axios : AxiosRequest -> World -> Completion AxiosResponse * World;
  triggerNode : Node.t -> JsValue -> World -> Completion JsValue * World;
  conditionNode : Node.t -> JsValue -> World -> Completion JsValue * World;
  aiActionNode : Node.t -> JsValue -> World -> Completion JsValue * World
}.

Record State (World : Type) : Type := {
  world : World;
  journal : list DbWrite
}.

(** The end of a run of the model: a completion and the state reached, or
    the recursion budget exhausted. *)
Inductive Outcome (World A : Type) : Type :=
| Returned (c : Completion A) (s : State World)
| OutOfFuel.

Arguments Returned {World A} c s.
Arguments OutOfFuel {World A}.

Definition M (World A : Type) : Type := State World -> Outcome World A.

Definition ret {World A} (a : A) : M World A :=
  fun s => Returned (Normal a) s.

Definition throw {World A} (e : JsError) : M World A :=
  fun s => Returned (Throw e) s.

Definition bind {World A B} (m : M World A) (k : A -> M World B) : M World B :=
  fun s =>
    match m s with
    | Returned (Normal a) s' => k a s'
    | Returned (Throw e) s' => Returned (Throw e) s'
    | OutOfFuel => OutOfFuel
    end.

(** [try { m } catch (e) { handler e }] *)
Definition tryCatch {World A} (m : M World A) (handler : JsError -> M World A)
  : M World A :=
  fun s =>
    match m s with
    | Returned (Throw e) s' => handler e s'
    | other => other
    end.

Declare Scope js_scope.
Delimit Scope js_scope with js.
Notation "x <- c1 ;; c2" := (bind c1 (fun x => c2))
  (at level 61, c1 at next level, right associativity) : js_scope.
Notation "c1 ;; c2" := (bind c1 (fun _ => c2))
  (at level 61, right associativity) : js_scope.

(** [for (const x of xs) { await body x }] *)
Fixpoint forEach {World A B} (xs : list A) (body : A -> M World B) : M World unit :=
  match xs with
  | [] => ret tt
  | x :: rest => bind (body x) (fun _ => forEach rest body)
  end.

(* ================================================================= *)
(** ** [apiCallNode] and the class [AgentExecutor] *)

(** The fields of the class; the [executionId] always names the document
    whose journal the state carries. *)
Record AgentExecutor : Type := {
  nodes : list Node.t;
  edges : list Edge.t
}.

Section Executor.

Context {World : Type} {RT : Runtime World}.

Local Open Scope js_scope.

(** A call into the runtime: only the world moves. *)
Definition call {A} (f : World -> Completion A * World) : M World A :=
  fun s =>
    let '(c, w) := f (world s) in
    Returned c {| world := w; journal := journal s |}.

(** A completion computed without effect. *)
Definition pure {A} (c : Completion A) : M World A :=
  fun s => Returned c s.

(** One write against the execution document. *)
Definition write (w : DbWrite) : M World unit :=
  fun s => Returned (Normal tt)
             {| world := world s; journal := journal s ++ [w] |}.

Definition newDate : M World Z :=
  call (fun w => let '(t, w') := now w in (Normal t, w')).

(** A template literal with one interpolation: the value is put
    through [ToString], which fails where [ToPrimitive] does. *)
Definition template (text : string) (v : JsValue) : M World Message :=
  pure (JsCompare.mapC (fun _ => TextWith text v) (JsCompare.toPrimitive v)).

(** [log]: the push is wrapped in a [try] whose [catch] only reports
    on the console. *)
Definition log (lvl : Level) (msg : Message) (data : option JsValue)
  : M World unit :=
  t <- newDate ;;
  write (PushLog {| timestamp := t; level := lvl;
                    logMessage := msg; logData := data |}).

(** [addResult] *)
Definition addResult (result : JsValue) : M World unit :=
  write (PushResult result).

(** [node.data.label]: reading a property of [undefined] or [null]
    throws. *)
Definition readLabel (node : Node.t) : Completion JsValue :=
  match Node.data node with
  | JUndefined =>
      Throw (TypeErrorOf "Cannot read properties of undefined (reading 'label')")
  | JNull =>
      Throw (TypeErrorOf "Cannot read properties of null (reading 'label')")
  | d => Normal (JsObject.get d "label")
  end.

Definition dataLabel (node : Node.t) : M World JsValue :=
  pure (readLabel node).

(** [node.data.label || node.type] *)
Definition labelOrType (node : Node.t) : M World JsValue :=
  label <- dataLabel node ;;
  ret (JsObject.orElse label (JStr (Node.type node))).

(** The request [apiCallNode] builds from the node object it is given. *)
Definition apiCallRequest (node : JsValue) : AxiosRequest :=
  {| reqMethod := JsObject.orElse (JsObject.get node "method") (JStr "GET");
     reqUrl := JsObject.get node "url";
     reqData := JsObject.orElse (JsObject.get node "body") (JObj []);
     reqHeaders := JsObject.orElse (JsObject.get node "headers") (JObj []);
     reqTimeout := None |}.

(** [apiCallNode]; the [catch] reports on the console only. *)
Definition apiCallNode (node : JsValue) (context : JsValue) : M World JsValue :=
  tryCatch
    (res <- call (axios (apiCallRequest node)) ;;
     ret (JsObject.spreadWith context "apiResult" (resData res)))
    (fun _ => ret context).

Definition isTriggerType (t : string) : bool :=
  String.eqb t "trigger" || String.eqb t "scheduleTrigger"
  || String.eqb t "webhookTrigger".

Definition isApiCallType (t : string) : bool :=
  String.eqb t "apiCall" || String.eqb t "action".

Definition isConditionType (t : string) : bool :=
  String.eqb t "condition" || String.eqb t "ifElse".

Definition isAiType (t : string) : bool :=
  String.eqb t "aiProcess" || String.eqb t "aiAction".

(** The [switch (node.type)] of [executeNode]. *)
Definition dispatch (node : Node.t) (context : JsValue) : M World JsValue :=
  let t := Node.type node in
  if isTriggerType t then call (triggerNode node context)
  else if isApiCallType t then apiCallNode (Node.toJs node) context
  else if isConditionType t then call (conditionNode node context)
  else if isAiType t then call (aiActionNode node context)
  else (log warning (TextWith "Unknown node type: " (JStr t)) None ;;
        ret context).

Variable this : AgentExecutor.

Definition findNode (nodeId : string) : option Node.t :=
  find (fun n => String.eqb (Node.id n) nodeId) (nodes this).

Definition outgoing (nodeId : string) : list Edge.t :=
  filter (fun e => String.eqb (Edge.source e) nodeId) (edges this).

(** The object [executeNode] hands to [addResult]. *)
Definition nodeResult (node : Node.t) (label result : JsValue) : JsValue :=
  JObj [("nodeId", JStr (Node.id node)); ("nodeType", JStr (Node.type node));
        ("nodeLabel", label); ("result", result)].

(** [executeNode] up to and including [addResult]: what happens at the
    node itself. *)
Definition visit (node : Node.t) (context : JsValue) : M World JsValue :=
  shown <- labelOrType node ;;
  msg <- template "Executing node: " shown ;;
  log info msg None ;;
  result <- dispatch node context ;;
  label <- dataLabel node ;;
  addResult (nodeResult node label result) ;;
  ret result.

(** [executeNode]; [fuel] bounds the depth of the recursion. *)
Fixpoint executeNode (fuel : nat) (nodeId : string) (context : JsValue)
  : M World JsValue :=
  match fuel with
  | O => fun _ => OutOfFuel
  | S fuel' =>
      match findNode nodeId with
      | None => ret context
      | Some node =>
          result <- visit node context ;;
          forEach (outgoing nodeId)
                  (fun edge => executeNode fuel' (Edge.target edge) result) ;;
          ret result
      end
  end.

(** The [try] block of [execute] once the trigger is found. *)
Definition runFrom (fuel : nat) (trigger : Node.t) : M World JsValue :=
  shown <- labelOrType trigger ;;
  msg <- template "Trigger found: " shown ;;
  log info msg None ;;
  results <- executeNode fuel (Node.id trigger) (JObj []) ;;
  log info (Text "Agent execution completed successfully") None ;;
  ret results.

(** The [catch] block of [execute]. *)
Definition reportFailure (err : JsError) : M World JsValue :=
  log error (Text "Agent execution failed")
      (Some (JObj [("error", JStr (message err))])) ;;
  throw err.

(** [execute] *)
Definition execute (fuel : nat) : M World JsValue :=
  tryCatch
    (log info (Text "Starting agent execution") None ;;
     match find (fun n => isTriggerType (Node.type n)) (nodes this) with
     | None => throw (ErrorOf "No trigger node found")
     | Some trigger => runFrom fuel trigger
     end)
    reportFailure.

(** *** The methods of the class that no call reaches

    [executeNode] dispatches to the imported handlers; [executeApiCall]
    and [executeCondition] stay in the class unused. *)

(** [Math.random() > 0.5] *)
Definition coinFlip : M World bool :=
  call (fun w => let '(r, w') := mathRandom w in
                 (Normal (negb (Qle_bool r (1 # 2))), w')).

Definition simulatedResponse (t : Z) : JsValue :=
  JObj [("status", JNum (JsNumber.ofZ 200));
        ("data", JObj [("message", JStr "API call simulated (no URL provided)");
                       ("timestamp", JStr (toISOString t))])].

(** [executeApiCall] *)
Definition executeApiCall (node : Node.t) (context : JsValue) : M World JsValue :=
  match Node.data node with
  | JUndefined =>
      throw (TypeErrorOf "Cannot destructure property 'url' of 'node.data' as it is undefined.")
  | JNull =>
      throw (TypeErrorOf "Cannot destructure property 'url' of 'node.data' as it is null.")
  | d =>
      let url := JsObject.get d "url" in
      let method :=
        match JsObject.get d "method" with JUndefined => JStr "GET" | v => v end in
      let headers :=
        match JsObject.get d "headers" with JUndefined => JObj [] | v => v end in
      let body := JsObject.get d "body" in
      msg <- template "Making API call to: "
               (JsObject.orElse url (JStr "No URL specified")) ;;
      log info msg None ;;
      attempt <-
        tryCatch
          (if JsObject.truthy url
           then
             response <- call (axios {| reqMethod := method; reqUrl := url;
                                        reqData := body; reqHeaders := headers;
                                        reqTimeout := Some 30000%Z |}) ;;
             ok <- template "API call successful: " (resStatus response) ;;
             log info ok None ;;
             ret (Some (JsObject.spreadWith context "apiResponse"
                          (JObj [("status", resStatus response);
                                 ("data", resData response);
                                 ("headers", resHeaders response)])))
           else ret None)
          (fun err =>
             log error (TextWith "API call failed: " (JStr (message err))) None ;;
             ret None) ;;
      match attempt with
      | Some answered => ret answered
      | None =>
          t <- newDate ;;
          ret (JsObject.spreadWith context "apiResponse" (simulatedResponse t))
      end
  end.

(** [nextEdges[conditionMet ? 0 : 1] || nextEdges[0]] *)
Definition pickEdge (nextEdges : list Edge.t) (met : bool) : option Edge.t :=
  match nth_error nextEdges (if met then 0 else 1) with
  | Some e => Some e
  | None => nth_error nextEdges 0
  end.

(** The [try] block of [executeCondition] that computes [conditionMet]. *)
Definition conditionMet (d : JsValue) (context : JsValue) : M World bool :=
  let condition := JsObject.get d "condition" in
  let conditionType :=
    match JsObject.get d "conditionType" with
    | JUndefined => JStr "simple"
    | v => v
    end in
  tryCatch
    (match conditionType with
     | JStr ct =>
         if String.eqb ct "simple" && JsObject.truthy condition
         then match condition with
              | JStr c => pure (evaluateSimpleCondition c context)
              | _ => throw (TypeErrorOf "condition.includes is not a function")
              end
         else coinFlip
     | _ => coinFlip
     end)
    (fun err =>
       log error (TextWith "Condition evaluation failed: " (JStr (message err))) None ;;
       ret false).

(** [executeCondition] *)
Definition executeCondition (fuel : nat) (node : Node.t) (context : JsValue)
  : M World JsValue :=
  match Node.data node with
  | JUndefined =>
      throw (TypeErrorOf "Cannot destructure property 'condition' of 'node.data' as it is undefined.")
  | JNull =>
      throw (TypeErrorOf "Cannot destructure property 'condition' of 'node.data' as it is null.")
  | d =>
      msg <- template "Evaluating condition: "
               (JsObject.orElse (JsObject.get d "condition")
                                (JStr "No condition specified")) ;;
      log info msg None ;;
      met <- conditionMet d context ;;
      log info (TextWith "Condition result: "
                  (JStr (if met then "TRUE" else "FALSE"))) None ;;
      match pickEdge (outgoing (Node.id node)) met with
      | Some nextEdge =>
          executeNode fuel (Edge.target nextEdge)
                      (JsObject.spreadWith context "conditionResult" (JBool met))
      | None => ret context
      end
  end.

End Executor.

(** The local document of [executeAgentWorkflow] after its assignments. *)
Definition finish (execution : Execution) (st : Status) (t : Z)
    (dur : option Z) (err : option string) : Execution :=
  {| agentId := agentId execution; userId := userId execution;
     status := st; startTime := startTime execution;
     endTime := Some t; duration := dur;
     results := results execution; logs := logs execution;
     errorMessage := err |}.

(** [executeAgentWorkflow] *)
Definition executeAgentWorkflow {World} {RT : Runtime World} (fuel : nat)
    (agent user : string) (nodeList : list Node.t) (edgeList : list Edge.t)
  : M World Execution :=
  (t0 <- newDate ;;
   let execution :=
     {| agentId := agent; userId := user; status := running;
        startTime := t0; endTime := None; duration := None;
        results := []; logs := []; errorMessage := None |} in
   write (Insert execution) ;;
   tryCatch
     (let executor := {| nodes := nodeList; edges := edgeList |} in
      execute executor fuel ;;
      t1 <- newDate ;;
      let finished :=
        finish execution completed t1 (Some (t1 - startTime execution)%Z) None in
      write (Save finished) ;;
      ret finished)
     (fun err =>
        t1 <- newDate ;;
        write (Save (finish execution failed t1 None (Some (message err)))) ;;
        throw err))%js.

(* ================================================================= *)
(** ** A reference runtime

    A deterministic runtime used to run the model on concrete graphs: the
    world is a clock that advances by one at each reading. *)

Module Reference.

Definition World : Type := nat.

Definition isoOf (t : Z) : string := "1970-01-01T00:00:00.000Z".

(** Modelled from the spec: [triggerNode] of [./nodes/triggerNode] is not
    among the sources; the trigger handler stamps [triggeredAt],
    [triggerType] and [triggerData] into the context and never fails. *)
Definition triggerNode (node : Node.t) (context : JsValue) (w : World)
  : Completion JsValue * World :=
  (Normal
     (JObj (JsObject.set "triggerData" (Node.data node)
              (JsObject.set "triggerType" (JStr (Node.type node))
                 (JsObject.set "triggeredAt" (JStr (isoOf (Z.of_nat w)))
                    (JsObject.spread context))))),
   S w).

(** Modelled from the spec: [conditionNode] of [./nodes/conditionNode] is
    not among the sources; the condition handler delegates to the
    condition evaluator and merges the boolean into the context as
    [conditionResult]; a failed evaluation counts as [false]. *)
Definition conditionNode (node : Node.t) (context : JsValue) (w : World)
  : Completion JsValue * World :=
  let met :=
    match JsObject.optGet (Node.data node) "condition" with
    | JStr c =>
        match evaluateSimpleCondition c context with
        | Normal b => b
        | Throw _ => false
        end
    | _ => false
    end in
  (Normal (JsObject.spreadWith context "conditionResult" (JBool met)), w).

(** Modelled from the spec: [aiActionNode] of [./nodes/aiActionNode] is
    not among the sources; without a text-generation capability the
    handler merges a simulated output block and does not fail. *)
Definition aiActionNode (node : Node.t) (context : JsValue) (w : World)
  : Completion JsValue * World :=
  (Normal (JsObject.spreadWith context "aiResponse"
             (JObj [("engine", JStr "simulation");
                    ("model", JsObject.optGet (Node.data node) "model");
                    ("inputPrompt", JsObject.optGet (Node.data node) "prompt");
                    ("output", JStr "AI processing simulated.")])),
   w).

(** An HTTP client that answers every request carrying a string URL and
    rejects the others. *)
Definition axios (req : AxiosRequest) (w : World)
  : Completion AxiosResponse * World :=
  match reqUrl req with
  | JStr _ =>
      (Normal {| resStatus := JNum (JsNumber.ofZ 200);
                 resData := JObj [("ok", JBool true)];
                 resHeaders := JObj [("content-type", JStr "application/json")] |},
       w)
  | _ => (Throw (TypeErrorOf "Invalid URL"), w)
  end.

#[export] Instance runtime : Runtime World :=
  Build_Runtime
    (fun w => (Z.of_nat w, S w))
    isoOf
    (fun w => (0%Q, w))
    axios triggerNode conditionNode aiActionNode.

End Reference.

(* ================================================================= *)
(** ** Definitions used to state the properties *)

Unset Implicit Arguments.

(** The left operand [evaluateSimpleCondition] resolves when it stops at
    operator [op]. *)
Definition leftOperand (condition op : string) : string :=
  hd EmptyString (splitOperands condition op).

(** The statement "a left path missing from the context fails every
    comparison". *)
Definition MissingFailsEveryComparison : Prop :=
  forall condition context op,
    matchedOperator condition = Some op ->
    getContextValue (leftOperand condition op) context = JUndefined ->
    evaluateSimpleCondition condition context = Normal false.

Module Literal.

(** The last code unit of a string and what precedes it. *)
Fixpoint unsnoc (s : string) : option (string * ascii) :=
  match s with
  | EmptyString => None
  | String c rest =>
      match unsnoc rest with
      | None => Some (EmptyString, c)
      | Some (front, z) => Some (String c front, z)
      end
  end.

(** The text between surrounding quotes, when the operand starts with
    a quote and ends with the same one. *)
Definition unquote (s : string) : option string :=
  match s with
  | String q rest =>
      if JsString.isQuote q
      then match unsnoc rest with
           | Some (inner, z) => if Ascii.eqb q z then Some inner else None
           | None => None
           end
      else None
  | EmptyString => None
  end.

(** The literal typing of a text that carries no quotes: number, then
    boolean, then string. *)
Definition typed (s : string) : JsValue :=
  if negb (JsNumber.isNaN (JsNumber.ofString s))
  then JNum (JsNumber.ofString s)
  else if String.eqb s "true" then JBool true
  else if String.eqb s "false" then JBool false
  else JStr s.

(** The right operand as the design document words it: a quoted operand
    loses its surrounding quotes and stays a string; any other operand
    is typed. *)
Definition parse (s : string) : JsValue :=
  match unquote s with
  | Some inner => JStr inner
  | None => typed s
  end.

End Literal.

(** [parseValue] yields a number other than [NaN], a boolean or a string:
    never [undefined], [null] or an object. *)
Inductive TypedLiteral : JsValue -> Prop :=
| typed_num n : JsNumber.isNaN n = false -> TypedLiteral (JNum n)
| typed_bool b : TypedLiteral (JBool b)
| typed_str s : TypedLiteral (JStr s).

Definition isLog (w : DbWrite) : bool :=
  match w with PushLog _ => true | _ => false end.

Definition isPush (w : DbWrite) : bool :=
  match w with PushLog _ | PushResult _ => true | _ => false end.

(** The number of visits the walk from [nodeId] makes in the unfolding of
    the graph, a node counting once for each path that leads to it. *)
Fixpoint pathVisits (this : AgentExecutor) (fuel : nat) (nodeId : string) : nat :=
  match fuel with
  | O => 0
  | S fuel' =>
      match findNode this nodeId with
      | None => 0
      | Some _ =>
          S (list_sum (map (fun e => pathVisits this fuel' (Edge.target e))
                           (outgoing this nodeId)))
      end
  end.

(** A result object as [executeNode] builds it for some node of the
    graph. *)
Definition IsNodeResult (this : AgentExecutor) (r : JsValue) : Prop :=
  exists node label result,
    In node (nodes this) /\ r = nodeResult node label result.

(** A graph without cycles: some rank decreases along every edge. *)
Definition Ranked (this : AgentExecutor) (rank : string -> nat) : Prop :=
  forall e, In e (edges this) -> rank (Edge.target e) < rank (Edge.source e).

(** The statement "a run on a graph with exactly one trigger and no
    condition node terminates", for the reference runtime. *)
Definition OneTriggerTerminates : Prop :=
  forall nodeList edgeList trigger,
    filter (fun n => isTriggerType (Node.type n)) nodeList = [trigger] ->
    filter (fun n => isConditionType (Node.type n)) nodeList = [] ->
    exists fuel,
      executeAgentWorkflow (RT := Reference.runtime) fuel "agent" "user"
        nodeList edgeList {| world := 0; journal := [] |} <> OutOfFuel.

(** What the run of a computation adds to the journal: pushes only, the
    results among them built by [executeNode], and [count] of them when
    the computation completes normally. *)
Definition Pushing {World A} (this : AgentExecutor) (m : M World A) (count : nat)
  : Prop :=
  forall s c s',
    m s = Returned c s' ->
    exists ws,
      journal s' = journal s ++ ws /\
      forallb isPush ws = true /\
      Forall (IsNodeResult this) (Db.pushedResults ws) /\
      ((exists a, c = Normal a) -> length (Db.pushedResults ws) = count).

(** The visits of the whole run: those of the walk from the entry node. *)
Definition entryVisits (this : AgentExecutor) (fuel : nat) : nat :=
  match find (fun n => isTriggerType (Node.type n)) (nodes this) with
  | Some trigger => pathVisits this fuel (Node.id trigger)
  | None => 0
  end.

(** The document [executeAgentWorkflow] creates. *)
Definition freshExecution (agent user : string) (t0 : Z) : Execution :=
  {| agentId := agent; userId := user; status := running;
     startTime := t0; endTime := None; duration := None;
     results := []; logs := []; errorMessage := None |}.

Definition logEntry (t : Z) (lvl : Level) (msg : Message)
    (data : option JsValue) : LogEntry :=
  {| timestamp := t; level := lvl; logMessage := msg; logData := data |}.

(** Concrete graphs. *)
Module Sample.

Definition start : State Reference.World := {| world := 0; journal := [] |}.

Definition nTrigger := Node.make "t" "trigger" (JObj [("label", JStr "Start")]).
Definition nSecond := Node.make "t2" "webhookTrigger" (JObj []).
Definition nCondition :=
  Node.make "c" "condition" (JObj [("condition", JStr "missing > 5")]).
Definition nYes := Node.make "yes" "notify" (JObj [("label", JStr "Yes")]).
Definition nNo := Node.make "no" "notify" (JObj [("label", JStr "No")]).
Definition nApi :=
  Node.make "api" "apiCall"
    (JObj [("url", JStr "https://api.example.com/items");
           ("method", JStr "POST")]).

(** A trigger, a condition, and one node on each branch. *)
Definition branching : AgentExecutor :=
  {| nodes := [nTrigger; nCondition; nYes; nNo];
     edges := [Edge.make "e1" "t" "c"; Edge.make "e2" "c" "yes";
               Edge.make "e3" "c" "no"] |}.

Definition branchingRank (nodeId : string) : nat :=
  if String.eqb nodeId "t" then 2
  else if String.eqb nodeId "c" then 1 else 0.

(** One trigger whose only edge comes back to it. *)
Definition looping : AgentExecutor :=
  {| nodes := [nTrigger]; edges := [Edge.make "e1" "t" "t"] |}.

(** Two nodes of the trigger family, no edge. *)
Definition twoTriggers : AgentExecutor :=
  {| nodes := [nApi; nTrigger; nSecond]; edges := [] |}.

(** An edge to a node that does not exist. *)
Definition dangling : AgentExecutor :=
  {| nodes := [nTrigger]; edges := [Edge.make "e1" "t" "ghost"] |}.

(** An HTTP client that answers every request, whatever its URL. *)
Definition answering : Runtime Reference.World :=
  Build_Runtime
    (fun w => (Z.of_nat w, S w))
    Reference.isoOf
    (fun w => (0%Q, w))
    (fun _ w =>
       (Normal {| resStatus := JNum (JsNumber.ofZ 200);
                  resData := JStr "payload";
                  resHeaders := JObj [] |}, w))
    Reference.triggerNode Reference.conditionNode Reference.aiActionNode.

Definition nodeIds (rs : list JsValue) : list JsValue :=
  map (fun r => JsObject.get r "nodeId") rs.

End Sample.

(* ================================================================= *)
(** ** Further definitions: [executeTrigger], the order of the walk *)

Section Trigger.

Context {World : Type} {RT : Runtime World}.

Local Open Scope js_scope.

(** [executeTrigger], a method of the class that no call reaches. *)
Definition executeTrigger (node : Node.t) (context : JsValue) : M World JsValue :=
  label <- dataLabel node ;;
  msg <- template "Trigger activated: "
           (JsObject.orElse label (JStr "Unnamed trigger")) ;;
  log info msg None ;;
  t <- newDate ;;
  ret (JObj (JsObject.set "triggerData" (Node.data node)
               (JsObject.set "triggerType" (JStr (Node.type node))
                  (JsObject.set "triggeredAt" (JStr (toISOString t))
                     (JsObject.spread context))))).

End Trigger.

(** The node ids in the order the walk from [nodeId] visits them: a node,
    then the walks from the targets of its outgoing edges, edge after
    edge. *)
Fixpoint preorder (this : AgentExecutor) (fuel : nat) (nodeId : string)
  : list string :=
  match fuel with
  | O => []
  | S fuel' =>
      match findNode this nodeId with
      | None => []
      | Some node =>
          Node.id node ::
          flat_map (fun e => preorder this fuel' (Edge.target e))
                   (outgoing this nodeId)
      end
  end.

(** The node ids of the results among a list of writes. *)
Definition resultIds (ws : list DbWrite) : list JsValue :=
  map (fun r => JsObject.get r "nodeId") (Db.pushedResults ws).

(** What the run of a computation adds to the results: on normal
    completion the results of the nodes [ids], in that order; when it
    throws, those of a first part of [ids]. *)
Definition Emitting {World A} (m : M World A) (ids : list string) : Prop :=
  forall s c s',
    m s = Returned c s' ->
    exists ws,
      journal s' = journal s ++ ws /\
      match c with
      | Normal _ => resultIds ws = map JStr ids
      | Throw _ => exists rest, map JStr ids = resultIds ws ++ rest
      end.

(** A document after the pushes among [ws]. *)
Definition withPushes (doc : Execution) (ws : list DbWrite) : Execution :=
  {| agentId := agentId doc; userId := userId doc; status := status doc;
     startTime := startTime doc; endTime := endTime doc;
     duration := duration doc;
     results := results doc ++ Db.pushedResults ws;
     logs := logs doc ++ Db.pushedLogs ws;
     errorMessage := errorMessage doc |}.

(** The document stored once [final] is saved over [doc]. *)
Definition savedOver (doc final : Execution) : Execution :=
  {| agentId := agentId doc; userId := userId doc; status := status final;
     startTime := startTime doc; endTime := endTime final;
     duration := duration final;
     results := results doc; logs := logs doc;
     errorMessage := errorMessage final |}.

(** The order of the whole run: that of the walk from the entry node. *)
Definition entryOrder (this : AgentExecutor) (fuel : nat) : list string :=
  match find (fun n => isTriggerType (Node.type n)) (nodes this) with
  | Some trigger => preorder this fuel (Node.id trigger)
  | None => []
  end.

(** The log entry [execute] ends with, by the way it ends. *)
Definition closingLog {A} (t : Z) (c : Completion A) : LogEntry :=
  match c with
  | Normal _ =>
      logEntry t info (Text "Agent execution completed successfully") None
  | Throw e =>
      logEntry t error (Text "Agent execution failed")
               (Some (JObj [("error", JStr (message e))]))
  end.

(** The request [executeApiCall] builds from the data of its node. *)
Definition executeApiCallRequest (d : JsValue) : AxiosRequest :=
  {| reqMethod :=
       match JsObject.get d "method" with JUndefined => JStr "GET" | v => v end;
     reqUrl := JsObject.get d "url";
     reqData := JsObject.get d "body";
     reqHeaders :=
       match JsObject.get d "headers" with JUndefined => JObj [] | v => v end;
     reqTimeout := Some 30000%Z |}.





(* ================================================================= *)
(** * Properties of the condition evaluator *)

Section StringFacts.

Lemma prefix_first (c : ascii) (p s : string) :
  String.prefix (String c p) s = true ->
  String.prefix (String c EmptyString) s = true.
Proof.
  destruct s as [|d s]; simpl; [discriminate|].
  destruct (ascii_dec c d); [|discriminate].
  intros _. now destruct s.
Qed.

Lemma prefix_single (c d : ascii) (s : string) :
  String.prefix (String c EmptyString) (String d s) = Ascii.eqb c d.
Proof.
  cbn [String.prefix]. destruct (ascii_dec c d) as [->|n].
  - rewrite Ascii.eqb_refl. now destruct s.
  - symmetry. now apply Ascii.eqb_neq.
Qed.

Lemma includes_first (s : string) (c : ascii) (p : string) :
  JsString.includes s (String c p) = true ->
  JsString.includes s (String c EmptyString) = true.
Proof.
  induction s as [|d s IH]; cbn [JsString.includes]; intros H.
  - apply orb_true_iff in H as [H|H]; [|discriminate].
    simpl in H. discriminate.
  - apply orb_true_iff in H as [H|H].
    + rewrite (prefix_first _ _ _ H). reflexivity.
    + rewrite (IH H). apply orb_true_r.
Qed.

Lemma split_go_not_nil (sep : string) (s : string) :
  forall k cur, JsString.split_go sep k cur s <> [].
Proof.
  induction s as [|c s IH]; intros k cur; cbn [JsString.split_go];
    [discriminate|].
  destruct k; [|apply IH].
  destruct (String.prefix sep (String c s)); [discriminate|apply IH].
Qed.

Lemma split_go_two (c : ascii) (p : string) (s : string) :
  forall cur,
    JsString.includes s (String c p) = true ->
    exists a b rest, JsString.split_go (String c p) 0 cur s = a :: b :: rest.
Proof.
  induction s as [|d s IH]; intros cur H.
  - simpl in H. discriminate.
  - cbn [JsString.includes] in H. cbn [JsString.split_go].
    destruct (String.prefix (String c p) (String d s)) eqn:E.
    + destruct (JsString.split_go (String c p) (String.length (String c p) - 1)
                  EmptyString s) as [|b rest] eqn:G.
      * now apply split_go_not_nil in G.
      * now exists cur, b, rest.
    + simpl in H. apply IH. exact H.
Qed.

(** An operator the condition includes cuts it in two pieces at least. *)
Lemma splitOperands_two (condition : string) (c : ascii) (p : string) :
  JsString.includes condition (String c p) = true ->
  exists a b rest, splitOperands condition (String c p) = a :: b :: rest.
Proof.
  intros H. unfold splitOperands, JsString.split.
  destruct (split_go_two c p condition EmptyString H) as (a & b & rest & E).
  rewrite E. simpl. now eexists _, _, _.
Qed.

Lemma removeQuotes_clean (s : string) (c : ascii) :
  JsString.isQuote c = true -> JsString.mem c (JsString.removeQuotes s) = false.
Proof.
  intros Hc. induction s as [|d s IH]; simpl; [reflexivity|].
  destruct (JsString.isQuote d) eqn:E; [exact IH|].
  simpl. rewrite IH, orb_false_r.
  apply Ascii.eqb_neq. intros ->. congruence.
Qed.

Lemma removeQuotes_app (s t : string) :
  JsString.removeQuotes (s ++ t)
  = (JsString.removeQuotes s ++ JsString.removeQuotes t)%string.
Proof.
  induction s as [|d s IH]; simpl; [reflexivity|].
  destruct (JsString.isQuote d); simpl; now rewrite IH.
Qed.

End StringFacts.

Section EvaluatorFacts.

(** The loop of [evaluateSimpleCondition] is a search for the first
    operator of the table that the condition includes. *)
Lemma evaluateWith_find (ops : list string) (condition : string) (context : JsValue) :
  evaluateWith ops condition context
  = match find (JsString.includes condition) ops with
    | Some op => applyOperator condition context op
    | None => Normal false
    end.
Proof.
  induction ops as [|op ops IH]; simpl; [reflexivity|].
  destruct (JsString.includes condition op); [reflexivity|exact IH].
Qed.

Lemma evaluateSimpleCondition_matched (condition : string) (context : JsValue) :
  evaluateSimpleCondition condition context
  = match matchedOperator condition with
    | Some op => applyOperator condition context op
    | None => Normal false
    end.
Proof. apply evaluateWith_find. Qed.

(** The entries [>=] and [<=] of the table are never the one matched:
    a condition that includes either includes [>] or [<], which stand
    earlier in the table. *)
Lemma matchedOperator_never_ge_le (condition : string) :
  matchedOperator condition <> Some ">=" /\ matchedOperator condition <> Some "<=".
Proof.
  unfold matchedOperator, operators. cbn [find].
  destruct (JsString.includes condition "=="); [split; discriminate|].
  destruct (JsString.includes condition "!="); [split; discriminate|].
  destruct (JsString.includes condition ">") eqn:G; [split; discriminate|].
  destruct (JsString.includes condition "<") eqn:L; [split; discriminate|].
  destruct (JsString.includes condition ">=") eqn:GE.
  { apply includes_first in GE. congruence. }
  destruct (JsString.includes condition "<=") eqn:LE.
  { apply includes_first in LE. congruence. }
  split; discriminate.
Qed.

Lemma matchedOperator_cases (condition op : string) :
  matchedOperator condition = Some op ->
  JsString.includes condition op = true /\
  (op = "==" \/ op = "!=" \/ op = ">" \/ op = "<").
Proof.
  unfold matchedOperator, operators. cbn [find].
  destruct (JsString.includes condition "==") eqn:E1; [intros [= <-]; auto|].
  destruct (JsString.includes condition "!=") eqn:E2; [intros [= <-]; auto|].
  destruct (JsString.includes condition ">") eqn:G; [intros [= <-]; auto|].
  destruct (JsString.includes condition "<") eqn:L; [intros [= <-]; auto 6|].
  destruct (JsString.includes condition ">=") eqn:GE.
  { apply includes_first in GE. congruence. }
  destruct (JsString.includes condition "<=") eqn:LE.
  { apply includes_first in LE. congruence. }
  discriminate.
Qed.

Lemma parseValue_typed (value : string) : TypedLiteral (parseValue value).
Proof.
  unfold parseValue.
  destruct (JsNumber.isNaN (JsNumber.ofString (JsString.removeQuotes value))) eqn:E;
    simpl.
  - destruct (String.eqb _ "true"); [constructor|].
    destruct (String.eqb _ "false"); constructor.
  - now constructor.
Qed.

Lemma lessThan_NaN_r (n : JsNumber) : JsNumber.lessThan n NaN = None.
Proof. now destruct n. Qed.

(** [undefined] against a typed literal: [!=] holds, the five other
    comparisons fail, none throws. *)
Lemma compareValues_undefined (v : JsValue) (op : string) :
  TypedLiteral v ->
  op = "==" \/ op = "!=" \/ op = ">" \/ op = "<" ->
  compareValues JUndefined v op = Normal (String.eqb op "!=").
Proof.
  intros Hv Hop.
  destruct Hop as [-> | [-> | [-> | ->]]]; destruct Hv as [n Hn|b|s];
    unfold compareValues; cbn [String.eqb Ascii.eqb Bool.eqb];
    try reflexivity.
  all: unfold JsCompare.gt, JsCompare.lt, JsCompare.lessThan; simpl;
    rewrite ?lessThan_NaN_r; try reflexivity.
  all: destruct b; reflexivity.
Qed.

End EvaluatorFacts.

(** C1 (the code departs from it).  The operator table of
    [evaluateSimpleCondition] lists [>] and [<] before [>=] and [<=], so
    the two-character operators are never the ones matched: for every
    condition the loop stops at one of [==], [!=], [>], [<].  On the
    condition [value >= 100] it stops at [>], cuts the text into [value]
    and [= 100], and answers [false] in a context where [value] is 100,
    where a comparison by [>=] answers [true]. *)
Theorem evaluate_ge_is_cut_at_gt :
  (forall condition,
      matchedOperator condition <> Some ">=" /\
      matchedOperator condition <> Some "<=") /\
  matchedOperator "value >= 100" = Some ">" /\
  splitOperands "value >= 100" ">" = ["value"; "= 100"] /\
  evaluateSimpleCondition "value >= 100"
    (JObj [("value", JNum (JsNumber.ofZ 100))]) = Normal false /\
  compareValues (JNum (JsNumber.ofZ 100)) (parseValue "100") ">=" = Normal true.
Proof.
  split; [exact matchedOperator_never_ge_le|].
  repeat split; reflexivity.
Qed.

(** The split is not limited to the first occurrence of the operator:
    every occurrence cuts, and the right operand is the second piece. *)
Example split_cuts_every_occurrence :
  splitOperands "a == b == c" "==" = ["a"; "b"; "c"] /\
  evaluateSimpleCondition "a == b == c" (JObj [("a", JStr "b")]) = Normal true.
Proof. split; reflexivity. Qed.

(** A dotted key walks the context one component at a time. *)
Lemma split_dot_component (k rest : string) :
  JsString.mem "."%char k = false ->
  forall cur,
    JsString.split_go "." 0 cur (k ++ String "."%char rest)
    = (cur ++ k)%string :: JsString.split_go "." 0 EmptyString rest.
Proof.
  induction k as [|c k IH]; intros Hk cur.
  - simpl. destruct rest; simpl.
    + f_equal. induction cur; simpl; congruence.
    + f_equal. induction cur; simpl; congruence.
  - cbn [JsString.mem] in Hk. apply orb_false_iff in Hk as [Hc Hk].
    cbn [append JsString.split_go].
    rewrite prefix_single, Hc.
    rewrite IH by exact Hk. f_equal.
    clear. induction cur; simpl; congruence.
Qed.

Lemma split_dot_last (k : string) :
  JsString.mem "."%char k = false ->
  forall cur, JsString.split_go "." 0 cur k = [(cur ++ k)%string].
Proof.
  induction k as [|c k IH]; intros Hk cur.
  - simpl. f_equal. induction cur; simpl; congruence.
  - cbn [JsString.mem] in Hk. apply orb_false_iff in Hk as [Hc Hk].
    cbn [JsString.split_go].
    rewrite prefix_single, Hc.
    rewrite IH by exact Hk. f_equal.
    clear. induction cur; simpl; congruence.
Qed.

Lemma getContextValue_component (k rest : string) (context : JsValue) :
  JsString.mem "."%char k = false ->
  getContextValue (k ++ String "."%char rest) context
  = getContextValue rest (JsObject.optGet context k).
Proof.
  intros Hk. unfold getContextValue, JsString.split.
  now rewrite split_dot_component.
Qed.

Lemma getContextValue_key (k : string) (context : JsValue) :
  JsString.mem "."%char k = false ->
  getContextValue k context = JsObject.optGet context k.
Proof.
  intros Hk. unfold getContextValue, JsString.split.
  now rewrite split_dot_last.
Qed.

Example getContextValue_user_age (age other : JsValue) :
  getContextValue "user.age"
    (JObj [("user", JObj [("age", age)]); ("other", other)]) = age.
Proof. reflexivity. Qed.

(** C7, as stated, fails: a missing left path makes [!=] hold. *)
Lemma missing_satisfies_ne : ~ MissingFailsEveryComparison.
Proof.
  intros H.
  specialize (H "missing != 5" (JObj []) "!=" eq_refl eq_refl).
  discriminate H.
Qed.

(** C7 (amended).  When the left operand of the matched operator resolves
    to [undefined] in the context, the evaluation does not throw and its
    answer is [true] for [!=] and [false] for every other operator. *)
Theorem missing_left_operand :
  forall condition context op,
    matchedOperator condition = Some op ->
    getContextValue (leftOperand condition op) context = JUndefined ->
    evaluateSimpleCondition condition context = Normal (String.eqb op "!=").
Proof.
  intros condition context op Hop Hleft.
  rewrite evaluateSimpleCondition_matched, Hop.
  destruct (matchedOperator_cases _ _ Hop) as [Hinc Hcases].
  assert (exists c p, op = String c p) as (c & p & ->).
  { destruct Hcases as [-> | [-> | [-> | ->]]]; now eexists _, _. }
  destruct (splitOperands_two condition c p Hinc) as (a & b & rest & E).
  unfold applyOperator, leftOperand in *. rewrite E in *. simpl in Hleft.
  rewrite Hleft.
  apply compareValues_undefined; [apply parseValue_typed|exact Hcases].
Qed.

(** The rule applied to the condition [missing > 5] in the empty context. *)
Lemma missing_left_operand_witness :
  evaluateSimpleCondition "missing > 5" (JObj []) = Normal false.
Proof.
  exact (missing_left_operand "missing > 5" (JObj []) ">" eq_refl eq_refl).
Defined.

(** C8, as stated, fails: a quoted numeric operand does not stay a
    string. *)
Lemma quoted_number_is_a_number :
  ~ (forall value, parseValue value = Literal.parse value).
Proof.
  intros H. specialize (H "'42'"). discriminate H.
Qed.

Lemma unquote_clean (s : string) :
  Literal.unquote (JsString.removeQuotes s) = None.
Proof.
  unfold Literal.unquote.
  destruct (JsString.removeQuotes s) as [|q rest] eqn:E; [reflexivity|].
  destruct (JsString.isQuote q) eqn:Q; [|reflexivity].
  pose proof (removeQuotes_clean s q Q) as H.
  rewrite E in H. simpl in H. now rewrite Ascii.eqb_refl in H.
Qed.

(** C8 (amended).  [parseValue] deletes every quote character of the
    operand, wherever it stands, and types what is left as if it had never
    been quoted: a number when [Number] accepts it, else a boolean for
    [true] and [false], else the string. *)
Theorem parseValue_deletes_quotes_then_types :
  forall value,
    JsString.mem JsString.quote1 (JsString.removeQuotes value) = false /\
    JsString.mem JsString.quote2 (JsString.removeQuotes value) = false /\
    parseValue value = Literal.parse (JsString.removeQuotes value).
Proof.
  intros value.
  split; [now apply removeQuotes_clean|].
  split; [now apply removeQuotes_clean|].
  unfold Literal.parse. rewrite unquote_clean. reflexivity.
Qed.

Lemma append_empty (s : string) : (s ++ EmptyString)%string = s.
Proof. induction s as [|c s IH]; simpl; congruence. Qed.

(** A quoted operand is typed exactly as the text between its quotes. *)
Lemma parseValue_quoted (q : ascii) (body : string) :
  JsString.isQuote q = true ->
  parseValue (String q (body ++ String q EmptyString)) = parseValue body.
Proof.
  intros Q. unfold parseValue. cbn [JsString.removeQuotes]. rewrite Q.
  rewrite removeQuotes_app. cbn [JsString.removeQuotes]. rewrite Q.
  now rewrite append_empty.
Qed.

Example parseValue_inner_quotes :
  parseValue "'it's'" = JStr "its" /\ parseValue "'true'" = JBool true
  /\ parseValue "''" = JNum (JsNumber.ofZ 0).
Proof. repeat split; reflexivity. Qed.

(* ================================================================= *)
(** * Properties of the walker *)

Section MonadFacts.

Context {World : Type}.

Lemma bind_normal {A B} (m : M World A) (k : A -> M World B) s a s1 :
  m s = Returned (Normal a) s1 -> bind m k s = k a s1.
Proof. unfold bind. now intros ->. Qed.

Lemma bind_throw {A B} (m : M World A) (k : A -> M World B) s e s1 :
  m s = Returned (Throw e) s1 -> bind m k s = Returned (Throw e) s1.
Proof. unfold bind. now intros ->. Qed.

Lemma bind_fuel {A B} (m : M World A) (k : A -> M World B) s :
  m s = OutOfFuel -> bind m k s = OutOfFuel.
Proof. unfold bind. now intros ->. Qed.

Lemma bind_returned {A B} (m : M World A) (k : A -> M World B) s c s' :
  bind m k s = Returned c s' ->
  (exists e, m s = Returned (Throw e) s' /\ c = Throw e) \/
  (exists a s1, m s = Returned (Normal a) s1 /\ k a s1 = Returned c s').
Proof.
  unfold bind. destruct (m s) as [[a|e] s1|]; intros H.
  - right. now exists a, s1.
  - left. exists e. now inversion H.
  - discriminate.
Qed.

Lemma pushedResults_app (ws1 ws2 : list DbWrite) :
  Db.pushedResults (ws1 ++ ws2) = Db.pushedResults ws1 ++ Db.pushedResults ws2.
Proof.
  induction ws1 as [|w ws1 IH]; simpl; [reflexivity|].
  destruct w; simpl; now rewrite IH.
Qed.

Lemma pushedLogs_app (ws1 ws2 : list DbWrite) :
  Db.pushedLogs (ws1 ++ ws2) = Db.pushedLogs ws1 ++ Db.pushedLogs ws2.
Proof.
  induction ws1 as [|w ws1 IH]; simpl; [reflexivity|].
  destruct w; simpl; now rewrite IH.
Qed.

Lemma statusHistory_app (ws1 ws2 : list DbWrite) :
  Db.statusHistory (ws1 ++ ws2) = Db.statusHistory ws1 ++ Db.statusHistory ws2.
Proof.
  induction ws1 as [|w ws1 IH]; simpl; [reflexivity|].
  destruct w; simpl; now rewrite IH.
Qed.

Lemma statusHistory_pushes (ws : list DbWrite) :
  forallb isPush ws = true -> Db.statusHistory ws = [].
Proof.
  induction ws as [|w ws IH]; simpl; [reflexivity|].
  destruct w; simpl; try discriminate; exact IH.
Qed.

Lemma pushedResults_logs (ws : list DbWrite) :
  forallb isLog ws = true -> Db.pushedResults ws = [].
Proof.
  induction ws as [|w ws IH]; simpl; [reflexivity|].
  destruct w; simpl; try discriminate; exact IH.
Qed.

Lemma logs_are_pushes (ws : list DbWrite) :
  forallb isLog ws = true -> forallb isPush ws = true.
Proof.
  induction ws as [|w ws IH]; simpl; [reflexivity|].
  destruct w; simpl; try discriminate; exact IH.
Qed.

Lemma stored_app (ws1 ws2 : list DbWrite) :
  Db.stored (ws1 ++ ws2) = fold_left Db.apply ws2 (Db.stored ws1).
Proof. unfold Db.stored. apply fold_left_app. Qed.

(** Pushes leave the status, the times and the error of the stored
    document as they were. *)
Lemma apply_pushes (ws : list DbWrite) (doc : Execution) :
  forallb isPush ws = true ->
  exists doc',
    fold_left Db.apply ws (Some doc) = Some doc' /\
    status doc' = status doc /\ errorMessage doc' = errorMessage doc /\
    results doc' = results doc ++ Db.pushedResults ws /\
    logs doc' = logs doc ++ Db.pushedLogs ws.
Proof.
  revert doc. induction ws as [|w ws IH]; intros doc H; simpl in *.
  - exists doc. now rewrite !app_nil_r.
  - apply andb_true_iff in H as [Hw Hws].
    destruct w; try discriminate; simpl.
    all: match goal with
         | |- context [fold_left Db.apply _ (Some ?d)] =>
             destruct (IH d Hws) as (doc' & E & S1 & S2 & S3 & S4)
         end.
    all: exists doc'; simpl in *; rewrite E, S1, S2, S3, S4, <- ?app_assoc.
    all: now repeat split.
Qed.

End MonadFacts.

Section WalkerFacts.

Context {World : Type} {RT : Runtime World}.

Lemma log_run (lvl : Level) (msg : Message) (data : option JsValue)
      (s : State World) :
  exists t w,
    log lvl msg data s
    = Returned (Normal tt)
        {| world := w;
           journal := journal s ++
             [PushLog {| timestamp := t; level := lvl;
                         logMessage := msg; logData := data |}] |}.
Proof.
  unfold log, newDate, call, write, bind.
  destruct (now (world s)) as [t w]. simpl. eauto.
Qed.

(** What [apiCallNode] does, whatever the node object: one request, no
    write; the answer's [data] under [apiResult], or the context as it
    came. *)
Lemma apiCallNode_run (node context : JsValue) (s : State World) :
  apiCallNode node context s
  = match axios (apiCallRequest node) (world s) with
    | (Normal res, w) =>
        Returned (Normal (JsObject.spreadWith context "apiResult" (resData res)))
                 {| world := w; journal := journal s |}
    | (Throw _, w) =>
        Returned (Normal context) {| world := w; journal := journal s |}
    end.
Proof.
  unfold apiCallNode, tryCatch, bind, call, ret.
  now destruct (axios (apiCallRequest node) (world s)) as [[res|e] w].
Qed.

(** The handlers write nothing; the default branch logs one warning. *)
Lemma dispatch_run (node : Node.t) (context : JsValue) (s : State World) :
  exists c w ws,
    dispatch node context s
    = Returned c {| world := w; journal := journal s ++ ws |}
    /\ forallb isLog ws = true.
Proof.
  unfold dispatch.
  destruct (isTriggerType (Node.type node)).
  { unfold call. destruct (triggerNode node context (world s)) as [c w].
    exists c, w, []. now rewrite app_nil_r. }
  destruct (isApiCallType (Node.type node)).
  { rewrite apiCallNode_run.
    destruct (axios _ (world s)) as [[res|e] w];
      eexists _, w, []; now rewrite app_nil_r. }
  destruct (isConditionType (Node.type node)).
  { unfold call. destruct (conditionNode node context (world s)) as [c w].
    exists c, w, []. now rewrite app_nil_r. }
  destruct (isAiType (Node.type node)).
  { unfold call. destruct (aiActionNode node context (world s)) as [c w].
    exists c, w, []. now rewrite app_nil_r. }
  destruct (log_run warning
              (TextWith "Unknown node type: " (JStr (Node.type node))) None s)
    as (t & w & E).
  rewrite (bind_normal _ _ _ _ _ E). unfold ret.
  now eexists _, w, [_].
Qed.

(** A visit writes its logs and then, unless something threw, the
    result of the node as its last write. *)
Lemma visit_run (node : Node.t) (context : JsValue) (s : State World) :
  exists w ws,
    forallb isLog ws = true /\
    ((exists e,
         visit node context s
         = Returned (Throw e) {| world := w; journal := journal s ++ ws |})
     \/
     (exists r label,
         visit node context s
         = Returned (Normal r)
             {| world := w;
                journal := journal s ++ ws ++
                             [PushResult (nodeResult node label r)] |})).
Proof.
  unfold visit.
  destruct (readLabel node) as [label|e] eqn:L.
  2:{ exists (world s), []. split; [reflexivity|]. left. exists e.
      rewrite app_nil_r.
      assert (labelOrType node s = Returned (Throw e) s) as E0.
      { unfold labelOrType, dataLabel, pure, bind. now rewrite L. }
      rewrite (bind_throw _ _ _ _ _ E0). now destruct s. }
  assert (labelOrType node s
          = Returned (Normal (JsObject.orElse label (JStr (Node.type node)))) s)
    as E0.
  { unfold labelOrType, dataLabel, pure, bind. now rewrite L. }
  rewrite (bind_normal _ _ _ _ _ E0).
  set (shown := JsObject.orElse label (JStr (Node.type node))).
  destruct (JsCompare.toPrimitive shown) as [p|e] eqn:P.
  2:{ exists (world s), []. split; [reflexivity|]. left. exists e.
      rewrite app_nil_r.
      assert (template "Executing node: " shown s = Returned (Throw e) s) as ET.
      { unfold template, pure. now rewrite P. }
      rewrite (bind_throw _ _ _ _ _ ET). now destruct s. }
  assert (template "Executing node: " shown s
          = Returned (Normal (TextWith "Executing node: " shown)) s) as ET.
  { unfold template, pure. now rewrite P. }
  rewrite (bind_normal _ _ _ _ _ ET).
  destruct (log_run info (TextWith "Executing node: " shown) None s)
    as (t & w1 & E1).
  rewrite (bind_normal _ _ _ _ _ E1).
  set (entry := PushLog {| timestamp := t; level := info;
                           logMessage := TextWith "Executing node: " shown;
                           logData := None |}) in *.
  destruct (dispatch_run node context
              {| world := w1; journal := journal s ++ [entry] |})
    as (c & w2 & ws & E2 & F).
  cbn [journal] in E2. rewrite <- app_assoc in E2.
  exists w2, (entry :: ws). split; [exact F|].
  destruct c as [r|e].
  - rewrite (bind_normal _ _ _ _ _ E2).
    right. exists r, label.
    assert (forall s1 : State World,
               dataLabel node s1 = Returned (Normal label) s1) as ED.
    { intros s1. unfold dataLabel, pure. now rewrite L. }
    rewrite (bind_normal _ _ _ _ _ (ED _)).
    unfold bind, addResult, write, ret. cbn [journal world].
    now rewrite <- app_assoc.
  - rewrite (bind_throw _ _ _ _ _ E2). left. now exists e.
Qed.

End WalkerFacts.

Section WalkerInvariants.

Context {World : Type} {RT : Runtime World}.
Variable this : AgentExecutor.

Lemma pushing_ret {A} (a : A) : Pushing this (ret (World := World) a) 0.
Proof.
  intros s c s' H. inversion H; subst. exists [].
  rewrite app_nil_r. repeat split; auto.
Qed.

Lemma pushing_pure {A} (c0 : Completion A) :
  Pushing this (pure (World := World) c0) 0.
Proof.
  intros s c s' H. inversion H; subst. exists [].
  rewrite app_nil_r. repeat split; auto.
Qed.

Lemma pushing_throw {A} (e : JsError) (n : nat) :
  Pushing this (throw (World := World) (A := A) e) n.
Proof.
  intros s c s' H. inversion H; subst. exists [].
  rewrite app_nil_r. repeat split; auto.
  intros [a Ha]. discriminate.
Qed.

Lemma pushing_log (lvl : Level) (msg : Message) (data : option JsValue) :
  Pushing this (log lvl msg data) 0.
Proof.
  intros s c s' H.
  destruct (log_run lvl msg data s) as (t & w & E).
  rewrite E in H. inversion H; subst. eexists [_]. cbn [journal].
  repeat split; auto.
Qed.

Lemma pushing_bind {A B} (m : M World A) (k : A -> M World B) (n1 n2 : nat) :
  Pushing this m n1 ->
  (forall a, Pushing this (k a) n2) ->
  Pushing this (bind m k) (n1 + n2).
Proof.
  intros Hm Hk s c s' H.
  apply bind_returned in H as [(e & E & ->)|(a & s1 & E & K)].
  - destruct (Hm _ _ _ E) as (ws & J & P & G & _).
    exists ws. repeat split; auto. intros [a Ha]. discriminate.
  - destruct (Hm _ _ _ E) as (ws1 & J1 & P1 & G1 & C1).
    destruct (Hk a _ _ _ K) as (ws2 & J2 & P2 & G2 & C2).
    exists (ws1 ++ ws2). rewrite J2, J1, <- app_assoc.
    rewrite forallb_app, P1, P2, pushedResults_app.
    repeat split; auto.
    + apply Forall_app. now split.
    + intros Hc. rewrite length_app, C2 by exact Hc.
      rewrite C1 by now exists a. reflexivity.
Qed.

(** A [catch] block that rethrows adds its own pushes and keeps the
    count of a normal completion. *)
Lemma pushing_tryCatch {A} (m : M World A) (h : JsError -> M World A) (n : nat) :
  Pushing this m n ->
  (forall e, Pushing this (h e) 0) ->
  (forall e s c s', h e s = Returned c s' -> exists e', c = Throw e') ->
  Pushing this (tryCatch m h) n.
Proof.
  intros Hm Hh Hthrows s c s' H. unfold tryCatch in H.
  destruct (m s) as [[a|e] s1|] eqn:E; [| |discriminate].
  - inversion H; subst. exact (Hm _ _ _ E).
  - destruct (Hm _ _ _ E) as (ws1 & J1 & P1 & G1 & _).
    destruct (Hh e _ _ _ H) as (ws2 & J2 & P2 & G2 & _).
    destruct (Hthrows _ _ _ _ H) as (e' & ->).
    exists (ws1 ++ ws2). rewrite J2, J1, <- app_assoc.
    rewrite forallb_app, P1, P2, pushedResults_app.
    repeat split; auto.
    + apply Forall_app. now split.
    + intros [a Ha]. discriminate.
Qed.

Lemma pushing_forEach {A B} (xs : list A) (body : A -> M World B)
      (cnt : A -> nat) :
  (forall x, In x xs -> Pushing this (body x) (cnt x)) ->
  Pushing this (forEach xs body) (list_sum (map cnt xs)).
Proof.
  induction xs as [|x xs IH]; intros Hb; cbn [forEach map list_sum fold_right].
  - apply pushing_ret.
  - apply pushing_bind.
    + apply Hb. now left.
    + intros _. apply IH. intros y Hy. apply Hb. now right.
Qed.

Lemma pushing_visit (node : Node.t) (context : JsValue) :
  In node (nodes this) -> Pushing this (visit node context) 1.
Proof.
  intros Hin s c s' H.
  destruct (visit_run node context s) as (w & ws & F & [(e & E)|(r & label & E)]);
    rewrite E in H; inversion H; subst; cbn [journal].
  - exists ws. rewrite (pushedResults_logs _ F).
    repeat split; auto using logs_are_pushes.
    intros [a Ha]. discriminate.
  - exists (ws ++ [PushResult (nodeResult node label r)]).
    rewrite forallb_app, (logs_are_pushes _ F), pushedResults_app,
      (pushedResults_logs _ F).
    repeat split; auto. simpl. constructor; [|constructor].
    now exists node, label, r.
Qed.

(** The walk from a node pushes logs and results only, and on normal
    completion one result for each visit of the unfolding. *)
Lemma pushing_executeNode (fuel : nat) :
  forall nodeId context,
    Pushing this (executeNode this fuel nodeId context)
            (pathVisits this fuel nodeId).
Proof.
  induction fuel as [|fuel IH]; intros nodeId context.
  - intros s c s' H. discriminate.
  - cbn [executeNode pathVisits].
    destruct (findNode this nodeId) as [node|] eqn:F.
    + replace (S (list_sum (map (fun e => pathVisits this fuel (Edge.target e))
                                (outgoing this nodeId))))
        with (1 + (list_sum (map (fun e => pathVisits this fuel (Edge.target e))
                                 (outgoing this nodeId)) + 0)) by lia.
      apply pushing_bind.
      * apply pushing_visit. unfold findNode in F.
        now apply find_some in F as [Hin _].
      * intros r. apply pushing_bind.
        -- apply pushing_forEach. intros e _. apply IH.
        -- intros _. apply pushing_ret.
    + apply pushing_ret.
Qed.

Lemma never_out_of_fuel_bind {A B} (m : M World A) (k : A -> M World B) :
  (forall s, m s <> OutOfFuel) ->
  (forall a s, k a s <> OutOfFuel) ->
  forall s, bind m k s <> OutOfFuel.
Proof.
  intros Hm Hk s. unfold bind.
  destruct (m s) as [[a|e] s1|] eqn:E; [apply Hk|discriminate|].
  now apply Hm in E.
Qed.

Lemma forEach_returns {A B} (xs : list A) (body : A -> M World B) :
  (forall x, In x xs -> forall s, body x s <> OutOfFuel) ->
  forall s, forEach xs body s <> OutOfFuel.
Proof.
  induction xs as [|x xs IH]; intros Hb; cbn [forEach]; [discriminate|].
  apply never_out_of_fuel_bind.
  - apply Hb. now left.
  - intros _. apply IH. intros y Hy. apply Hb. now right.
Qed.

Lemma visit_returns (node : Node.t) (context : JsValue) (s : State World) :
  visit node context s <> OutOfFuel.
Proof.
  destruct (visit_run node context s) as (w & ws & _ & [(e & E)|(r & l & E)]);
    rewrite E; discriminate.
Qed.

Lemma log_returns lvl msg data (s : State World) :
  log lvl msg data s <> OutOfFuel.
Proof. destruct (log_run lvl msg data s) as (t & w & ->). discriminate. Qed.

(** On a graph without cycles the walk ends once the budget exceeds the
    rank of the node it starts from. *)
Lemma executeNode_returns (rank : string -> nat) :
  Ranked this rank ->
  forall fuel nodeId,
    rank nodeId < fuel ->
    forall context s, executeNode this fuel nodeId context s <> OutOfFuel.
Proof.
  intros HR. induction fuel as [|fuel IH]; intros nodeId Hlt context; [lia|].
  cbn [executeNode].
  destruct (findNode this nodeId) as [node|]; [|discriminate].
  apply never_out_of_fuel_bind; [apply visit_returns|].
  intros r. apply never_out_of_fuel_bind; [|discriminate].
  apply forEach_returns. intros e He. apply IH.
  unfold outgoing in He. apply filter_In in He as [Hin Hsrc].
  apply String.eqb_eq in Hsrc. specialize (HR e Hin). rewrite Hsrc in HR. lia.
Qed.

Lemma reportFailure_throws (e : JsError) (s : State World) c s' :
  reportFailure e s = Returned c s' -> c = Throw e.
Proof.
  unfold reportFailure. intros H.
  destruct (log_run error (Text "Agent execution failed")
              (Some (JObj [("error", JStr (message e))])) s) as (t & w & E).
  rewrite (bind_normal _ _ _ _ _ E) in H. now inversion H.
Qed.

Lemma pushing_reportFailure (e : JsError) : Pushing this (reportFailure e) 0.
Proof.
  unfold reportFailure. change 0 with (0 + 0). apply pushing_bind.
  - apply pushing_log.
  - intros _. apply pushing_throw.
Qed.

Lemma pushing_runFrom (fuel : nat) (trigger : Node.t) :
  Pushing this (runFrom this fuel trigger)
          (pathVisits this fuel (Node.id trigger)).
Proof.
  unfold runFrom, labelOrType, dataLabel, template.
  replace (pathVisits this fuel (Node.id trigger))
    with ((0 + 0) + (0 + (0 + (pathVisits this fuel (Node.id trigger) + (0 + 0)))))
    by lia.
  apply pushing_bind.
  { apply pushing_bind; [apply pushing_pure|intros; apply pushing_ret]. }
  intros shown. apply pushing_bind; [apply pushing_pure|].
  intros msg. apply pushing_bind; [apply pushing_log|].
  intros _. apply pushing_bind; [apply pushing_executeNode|].
  intros r. apply pushing_bind; [apply pushing_log|].
  intros _. apply pushing_ret.
Qed.

Lemma pushing_execute (fuel : nat) :
  Pushing this (execute this fuel) (entryVisits this fuel).
Proof.
  unfold execute, entryVisits. apply pushing_tryCatch.
  - change (match find _ (nodes this) with
            | Some t => pathVisits this fuel (Node.id t) | None => 0 end)
      with (0 + match find (fun n => isTriggerType (Node.type n)) (nodes this) with
                | Some t => pathVisits this fuel (Node.id t) | None => 0 end).
    apply pushing_bind; [apply pushing_log|].
    intros _. destruct (find _ (nodes this)).
    + apply pushing_runFrom.
    + apply pushing_throw.
  - apply pushing_reportFailure.
  - intros e s c s' H. exists e. exact (reportFailure_throws _ _ _ _ H).
Qed.

Lemma runFrom_returns (rank : string -> nat) (fuel : nat) (trigger : Node.t) :
  Ranked this rank ->
  rank (Node.id trigger) < fuel ->
  forall s, runFrom this fuel trigger s <> OutOfFuel.
Proof.
  intros HR Hlt. unfold runFrom.
  apply never_out_of_fuel_bind.
  { intros s. unfold labelOrType, dataLabel, pure, bind, ret.
    destruct (readLabel trigger); discriminate. }
  intros shown. apply never_out_of_fuel_bind; [discriminate|].
  intros msg. apply never_out_of_fuel_bind; [apply log_returns|].
  intros _. apply never_out_of_fuel_bind.
  { now apply (executeNode_returns rank HR). }
  intros r. apply never_out_of_fuel_bind; [apply log_returns|discriminate].
Qed.

Lemma execute_returns (rank : string -> nat) (fuel : nat) :
  Ranked this rank ->
  (forall trigger,
      find (fun n => isTriggerType (Node.type n)) (nodes this) = Some trigger ->
      rank (Node.id trigger) < fuel) ->
  forall s, execute this fuel s <> OutOfFuel.
Proof.
  intros HR Hfuel s. unfold execute, tryCatch.
  match goal with
  | |- match ?m s with _ => _ end <> _ => destruct (m s) as [[a|e] s1|] eqn:E
  end; [discriminate| |].
  - unfold reportFailure.
    apply never_out_of_fuel_bind; [apply log_returns|discriminate].
  - exfalso. revert E. apply never_out_of_fuel_bind; [apply log_returns|].
    intros _ s2. destruct (find _ (nodes this)) as [t|] eqn:F; [|discriminate].
    apply (runFrom_returns rank); auto.
Qed.

End WalkerInvariants.

(* ================================================================= *)
(** * The claims about the walker *)

Lemma find_none_all {A} (f : A -> bool) (l : list A) :
  (forall x, In x l -> f x = false) -> find f l = None.
Proof.
  induction l as [|x l IH]; intros H; simpl; [reflexivity|].
  rewrite (H x (or_introl eq_refl)). apply IH. intros y Hy. apply H. now right.
Qed.

Lemma find_first {A} (f : A -> bool) (before after : list A) (x : A) :
  (forall y, In y before -> f y = false) -> f x = true ->
  find f (before ++ x :: after) = Some x.
Proof.
  induction before as [|y before IH]; intros Hb Hx; simpl.
  - now rewrite Hx.
  - rewrite (Hb y (or_introl eq_refl)). apply IH; [|exact Hx].
    intros z Hz. apply Hb. now right.
Qed.

(** The walker treats a condition node as any other node: once the node
    is visited, every outgoing edge is followed, in order, each with the
    context the visit returned. *)
Lemma executeNode_follows_every_edge
      {World} {RT : Runtime World} (this : AgentExecutor) (fuel : nat)
      (node : Node.t) (context : JsValue) (s : State World) r s1 :
  findNode this (Node.id node) = Some node ->
  visit node context s = Returned (Normal r) s1 ->
  executeNode this (S fuel) (Node.id node) context s
  = bind (forEach (outgoing this (Node.id node))
                  (fun edge => executeNode this fuel (Edge.target edge) r))
         (fun _ => ret r) s1.
Proof.
  intros F V. cbn [executeNode]. rewrite F.
  now rewrite (bind_normal _ _ _ _ _ V).
Qed.

(** The unused [executeCondition] does select one edge. *)
Lemma pickEdge_selects (first second : Edge.t) (others : list Edge.t) :
  pickEdge (first :: second :: others) true = Some first /\
  pickEdge (first :: second :: others) false = Some second /\
  pickEdge [first] false = Some first /\
  pickEdge [] true = None.
Proof. repeat split. Qed.

(** C2 (the code departs from it).  On the graph trigger -> condition ->
    (yes, no), where the condition [missing > 5] evaluates to [false], the
    run visits the node of the first edge and the node of the second edge:
    the result list holds one result for each of the four nodes. *)
Theorem condition_node_runs_both_branches :
  evaluateSimpleCondition "missing > 5" (JObj []) = Normal false /\
  exists final s',
    executeAgentWorkflow (RT := Reference.runtime) 3 "agent" "user"
      (nodes Sample.branching) (edges Sample.branching) Sample.start
    = Returned (Normal final) s' /\
    Sample.nodeIds (Db.pushedResults (journal s'))
    = [JStr "t"; JStr "c"; JStr "yes"; JStr "no"].
Proof.
  split; [reflexivity|].
  eexists _, _. split; [vm_compute; reflexivity|]. vm_compute. reflexivity.
Qed.

(** C3 (the code departs from it).  For a node of the declared shape
    (id, type, data) the request [apiCallNode] issues does not depend on
    [node.data]: it is a GET with no URL, an empty body and empty headers.
    When the client answers, only the answer's [data] is merged, under
    [apiResult]; when it fails the context comes back as it was, and
    nothing is written to the execution document in either case. *)
Theorem apiCallNode_ignores_node_data :
  forall World (RT : Runtime World) (node : Node.t) (context : JsValue)
         (s : State World),
    apiCallRequest (Node.toJs node)
    = {| reqMethod := JStr "GET"; reqUrl := JUndefined;
         reqData := JObj []; reqHeaders := JObj []; reqTimeout := None |}
    /\
    apiCallNode (Node.toJs node) context s
    = match axios (apiCallRequest (Node.toJs node)) (world s) with
      | (Normal res, w) =>
          Returned (Normal (JsObject.spreadWith context "apiResult" (resData res)))
                   {| world := w; journal := journal s |}
      | (Throw _, w) =>
          Returned (Normal context) {| world := w; journal := journal s |}
      end.
Proof.
  intros. split; [reflexivity|apply apiCallNode_run].
Qed.

(** The node of the sample carries a URL and a method in its data; the
    answer merged has no status and no headers. *)
Example apiCallNode_on_sample :
  reqUrl (apiCallRequest (Node.toJs Sample.nApi)) = JUndefined /\
  apiCallNode (RT := Sample.answering) (Node.toJs Sample.nApi) (JObj []) Sample.start
  = Returned (Normal (JObj [("apiResult", JStr "payload")])) Sample.start.
Proof. split; reflexivity. Qed.

(** The result of a node is the last write before its successors run. *)
Lemma result_precedes_successors
      {World} {RT : Runtime World} (this : AgentExecutor) (fuel : nat)
      (node : Node.t) (context : JsValue) (s : State World) r s1 :
  findNode this (Node.id node) = Some node ->
  visit node context s = Returned (Normal r) s1 ->
  (exists ws label,
      journal s1 = journal s ++ ws ++ [PushResult (nodeResult node label r)]
      /\ forallb isLog ws = true) /\
  executeNode this (S fuel) (Node.id node) context s
  = bind (forEach (outgoing this (Node.id node))
                  (fun edge => executeNode this fuel (Edge.target edge) r))
         (fun _ => ret r) s1.
Proof.
  intros F V. split; [|now apply executeNode_follows_every_edge].
  destruct (visit_run node context s) as (w & ws & L & [(e & E)|(r' & label & E)]);
    rewrite E in V; inversion V; subst.
  now exists ws, label.
Qed.

(** Results pushed before a failure stay in the journal. *)
Lemma results_survive_failure
      {World} {RT : Runtime World} (this : AgentExecutor) (fuel : nat)
      (nodeId : string) (context : JsValue) (s : State World) e s' :
  executeNode this fuel nodeId context s = Returned (Throw e) s' ->
  exists rs, Db.pushedResults (journal s') = Db.pushedResults (journal s) ++ rs.
Proof.
  intros H. destruct (pushing_executeNode this fuel nodeId context _ _ _ H)
    as (ws & J & _). exists (Db.pushedResults ws).
  now rewrite J, pushedResults_app.
Qed.

Lemma nodeResult_fields (node : Node.t) (label result : JsValue) :
  JsObject.get (nodeResult node label result) "nodeId" = JStr (Node.id node) /\
  JsObject.get (nodeResult node label result) "nodeType" = JStr (Node.type node) /\
  JsObject.get (nodeResult node label result) "nodeLabel" = label /\
  JsObject.get (nodeResult node label result) "result" = result /\
  JsObject.get (nodeResult node label result) "timestamp" = JUndefined.
Proof. repeat split. Qed.

(** C4 (the code departs from it on the timestamp).  Whatever way the
    walk from a node ends, it only adds results to those already pushed;
    each added result is the object (nodeId, nodeType, nodeLabel, result)
    of a node of the graph and has no [timestamp]; and when the walk
    completes normally their number is the number of visits of the
    unfolding, a node counting once for each path that reaches it. *)
Theorem node_results_count_visits_without_timestamp :
  forall World (RT : Runtime World) (this : AgentExecutor) (fuel : nat)
         (nodeId : string) (context : JsValue) (s : State World) c s',
    executeNode this fuel nodeId context s = Returned c s' ->
    exists rs,
      Db.pushedResults (journal s') = Db.pushedResults (journal s) ++ rs /\
      Forall (fun r => IsNodeResult this r /\
                       JsObject.get r "timestamp" = JUndefined) rs /\
      ((exists r, c = Normal r) -> length rs = pathVisits this fuel nodeId).
Proof.
  intros World RT this fuel nodeId context s c s' H.
  destruct (pushing_executeNode this fuel nodeId context _ _ _ H)
    as (ws & J & _ & G & C).
  exists (Db.pushedResults ws). rewrite J, pushedResults_app.
  repeat split; auto.
  apply Forall_forall. intros r Hr.
  rewrite Forall_forall in G. specialize (G r Hr). split; [exact G|].
  destruct G as (node & label & result & _ & ->). apply nodeResult_fields.
Qed.

(** The statement applied to the walk of the branching sample from its
    trigger. *)
Lemma node_results_count_visits_without_timestamp_witness :
  exists c s',
    executeNode (RT := Reference.runtime) Sample.branching 3 "t" (JObj [])
      Sample.start = Returned c s' /\
    exists rs,
      Db.pushedResults (journal s')
      = Db.pushedResults (journal Sample.start) ++ rs /\
      Forall (fun r => IsNodeResult Sample.branching r /\
                       JsObject.get r "timestamp" = JUndefined) rs /\
      ((exists r, c = Normal r) -> length rs = pathVisits Sample.branching 3 "t").
Proof.
  eexists _, _. split; [vm_compute; reflexivity|].
  apply (node_results_count_visits_without_timestamp
           Reference.World Reference.runtime Sample.branching 3 "t" (JObj [])
           Sample.start).
  vm_compute. reflexivity.
Defined.

Section WorkflowFacts.

Context {World : Type} {RT : Runtime World}.

Lemma newDate_run (s : State World) :
  exists t w,
    newDate s = Returned (Normal t) {| world := w; journal := journal s |}.
Proof.
  unfold newDate, call. destruct (now (world s)) as [t w]. now exists t, w.
Qed.

(** Without a trigger [execute] logs its start, logs the failure and
    throws; the walk is not entered. *)
Lemma execute_without_trigger (this : AgentExecutor) (fuel : nat)
      (s : State World) :
  find (fun n => isTriggerType (Node.type n)) (nodes this) = None ->
  exists t1 t2 w,
    execute this fuel s
    = Returned (Throw (ErrorOf "No trigger node found"))
        {| world := w;
           journal := journal s ++
             [PushLog (logEntry t1 info (Text "Starting agent execution") None);
              PushLog (logEntry t2 error (Text "Agent execution failed")
                         (Some (JObj [("error", JStr "No trigger node found")])))] |}.
Proof.
  intros F. unfold execute, tryCatch. rewrite F.
  destruct (log_run info (Text "Starting agent execution") None s)
    as (t1 & w1 & E1).
  rewrite (bind_normal _ _ _ _ _ E1). unfold throw at 1.
  unfold reportFailure.
  match goal with
  | |- context [bind (log error ?m ?d) _ ?st] =>
      destruct (log_run error m d st) as (t2 & w2 & E2)
  end.
  rewrite (bind_normal _ _ _ _ _ E2). unfold throw. cbn [journal].
  exists t1, t2, w2. now rewrite <- app_assoc.
Qed.

(** The journal of a run that returns: the insertion of the running
    document, pushes, and one save of the terminal document, last. *)
Lemma workflow_run (fuel : nat) (agent user : string)
      (nodeList : list Node.t) (edgeList : list Edge.t) (s : State World) c s' :
  executeAgentWorkflow fuel agent user nodeList edgeList s = Returned c s' ->
  exists t0 t1 ws final,
    journal s'
    = journal s ++ Insert (freshExecution agent user t0) :: ws ++ [Save final]
    /\ forallb isPush ws = true
    /\ ((c = Normal final /\
         final = finish (freshExecution agent user t0) completed t1
                   (Some (t1 - t0)%Z) None)
        \/ (exists e, c = Throw e /\
              final = finish (freshExecution agent user t0) failed t1 None
                        (Some (message e)))).
Proof.
  unfold executeAgentWorkflow. intros H.
  destruct (newDate_run s) as (t0 & w0 & E0).
  rewrite (bind_normal _ _ _ _ _ E0) in H.
  fold (freshExecution agent user t0) in H.
  set (doc := freshExecution agent user t0) in *.
  unfold write at 1 in H. unfold bind at 1 in H. cbn [journal world] in H.
  set (this := {| nodes := nodeList; edges := edgeList |}) in *.
  set (s1 := {| world := w0; journal := journal s ++ [Insert doc] |}) in *.
  unfold tryCatch in H.
  destruct (execute this fuel s1) as [[r|e] s2|] eqn:EX.
  - rewrite (bind_normal _ _ _ _ _ EX) in H.
    destruct (pushing_execute this fuel _ _ _ EX) as (ws & J & P & _).
    destruct (newDate_run s2) as (t1 & w1 & E1).
    rewrite (bind_normal _ _ _ _ _ E1) in H.
    unfold write, bind, ret in H. cbn [journal world] in H.
    inversion H; subst c s'. cbn [journal].
    exists t0, t1, ws, (finish doc completed t1 (Some (t1 - t0)%Z) None).
    rewrite J. subst s1. cbn [journal]. rewrite <- !app_assoc.
    repeat split; auto.
  - rewrite (bind_throw _ _ _ _ _ EX) in H.
    destruct (pushing_execute this fuel _ _ _ EX) as (ws & J & P & _).
    destruct (newDate_run s2) as (t1 & w1 & E1).
    rewrite (bind_normal _ _ _ _ _ E1) in H.
    unfold write, bind, throw in H. cbn [journal world] in H.
    inversion H; subst c s'. cbn [journal].
    exists t0, t1, ws, (finish doc failed t1 None (Some (message e))).
    rewrite J. subst s1. cbn [journal]. rewrite <- !app_assoc.
    repeat split; auto. right. now exists e.
  - rewrite (bind_fuel _ _ _ EX) in H. discriminate.
Qed.

Lemma workflow_returns (fuel : nat) (agent user : string)
      (nodeList : list Node.t) (edgeList : list Edge.t) (rank : string -> nat) :
  Ranked {| nodes := nodeList; edges := edgeList |} rank ->
  (forall trigger,
      find (fun n => isTriggerType (Node.type n)) nodeList = Some trigger ->
      rank (Node.id trigger) < fuel) ->
  forall s, executeAgentWorkflow fuel agent user nodeList edgeList s <> OutOfFuel.
Proof.
  intros HR Hfuel s. unfold executeAgentWorkflow.
  destruct (newDate_run s) as (t0 & w0 & E0).
  rewrite (bind_normal _ _ _ _ _ E0).
  apply never_out_of_fuel_bind; [discriminate|].
  intros _ s1. unfold tryCatch.
  match goal with
  | |- match ?m s1 with _ => _ end <> _ => destruct (m s1) as [[a|e] s2|] eqn:E
  end; [discriminate| |].
  - destruct (newDate_run s2) as (t1 & w1 & E1).
    rewrite (bind_normal _ _ _ _ _ E1). discriminate.
  - exfalso. revert E. apply never_out_of_fuel_bind.
    + now apply (execute_returns _ rank).
    + intros r s3. destruct (newDate_run s3) as (t1 & w1 & E1).
      rewrite (bind_normal _ _ _ _ _ E1). discriminate.
Qed.

(** The status of the stored document after a run that returned. *)
Lemma stored_after_run (j ws : list DbWrite) (doc final : Execution) :
  forallb isPush ws = true ->
  exists stored,
    Db.stored (j ++ Insert doc :: ws ++ [Save final]) = Some stored /\
    status stored = status final /\
    errorMessage stored = errorMessage final /\
    results stored = results doc ++ Db.pushedResults ws /\
    logs stored = logs doc ++ Db.pushedLogs ws.
Proof.
  intros P. rewrite stored_app. cbn [fold_left].
  replace (Db.apply (Db.stored j) (Insert doc)) with (Some doc)
    by now destruct (Db.stored j).
  rewrite fold_left_app.
  destruct (apply_pushes ws doc P) as (d & E & S1 & S2 & S3 & S4).
  rewrite E. cbn. eexists. split; [reflexivity|]. cbn. auto.
Qed.

End WorkflowFacts.

(** C5.  On a graph without a node of the trigger family the run throws
    the error "No trigger node found" to its caller; at that point the
    journal ends with the save of the failed document, and the document
    stored has status [failed], the message as its error, the two log
    entries of [execute] and no result. *)
Theorem run_without_trigger_is_saved_as_failed :
  forall World (RT : Runtime World) (nodeList : list Node.t)
         (edgeList : list Edge.t) (fuel : nat) (agent user : string)
         (s : State World),
    (forall n, In n nodeList -> isTriggerType (Node.type n) = false) ->
    exists s' t0 t1 t2 t3 stored,
      executeAgentWorkflow fuel agent user nodeList edgeList s
      = Returned (Throw (ErrorOf "No trigger node found")) s' /\
      journal s'
      = journal s ++
          [Insert (freshExecution agent user t0);
           PushLog (logEntry t1 info (Text "Starting agent execution") None);
           PushLog (logEntry t2 error (Text "Agent execution failed")
                      (Some (JObj [("error", JStr "No trigger node found")])));
           Save (finish (freshExecution agent user t0) failed t3 None
                   (Some "No trigger node found"))] /\
      Db.stored (journal s') = Some stored /\
      status stored = failed /\
      errorMessage stored = Some "No trigger node found" /\
      endTime stored = Some t3 /\
      results stored = [] /\
      map level (logs stored) = [info; error].
Proof.
  intros World RT nodeList edgeList fuel agent user s Hnone.
  pose proof (find_none_all (fun n => isTriggerType (Node.type n)) nodeList Hnone)
    as F.
  unfold executeAgentWorkflow.
  destruct (newDate_run s) as (t0 & w0 & E0).
  rewrite (bind_normal _ _ _ _ _ E0).
  fold (freshExecution agent user t0).
  unfold write at 1. unfold bind at 1. cbn [journal world].
  unfold tryCatch.
  destruct (execute_without_trigger
              {| nodes := nodeList; edges := edgeList |} fuel
              {| world := w0;
                 journal := journal s ++ [Insert (freshExecution agent user t0)] |} F)
    as (t1 & t2 & w2 & EX).
  rewrite (bind_throw _ _ _ _ _ EX).
  match goal with
  | |- context [bind newDate _ ?st] => destruct (newDate_run st) as (t3 & w3 & E3)
  end.
  rewrite (bind_normal _ _ _ _ _ E3).
  unfold write, bind, throw. cbn [journal world message].
  eexists _, t0, t1, t2, t3, _. split; [reflexivity|]. cbn [journal].
  rewrite <- !app_assoc. split; [reflexivity|].
  rewrite stored_app. cbn [fold_left app].
  replace (Db.apply (Db.stored (journal s)) (Insert (freshExecution agent user t0)))
    with (Some (freshExecution agent user t0)) by now destruct (Db.stored (journal s)).
  cbn. repeat split; reflexivity.
Qed.

(** The statement applied to a graph of two nodes, neither of them a
    trigger. *)
Lemma run_without_trigger_is_saved_as_failed_witness :
  exists s' t0 t1 t2 t3 stored,
    executeAgentWorkflow (RT := Reference.runtime) 5 "agent" "user"
      [Sample.nApi; Sample.nYes] [Edge.make "e1" "api" "yes"] Sample.start
    = Returned (Throw (ErrorOf "No trigger node found")) s' /\
    journal s'
    = journal Sample.start ++
        [Insert (freshExecution "agent" "user" t0);
         PushLog (logEntry t1 info (Text "Starting agent execution") None);
         PushLog (logEntry t2 error (Text "Agent execution failed")
                    (Some (JObj [("error", JStr "No trigger node found")])));
         Save (finish (freshExecution "agent" "user" t0) failed t3 None
                 (Some "No trigger node found"))] /\
    Db.stored (journal s') = Some stored /\
    status stored = failed /\
    errorMessage stored = Some "No trigger node found" /\
    endTime stored = Some t3 /\
    results stored = [] /\
    map level (logs stored) = [info; error].
Proof.
  apply (run_without_trigger_is_saved_as_failed
           Reference.World Reference.runtime
           [Sample.nApi; Sample.nYes] [Edge.make "e1" "api" "yes"] 5
           "agent" "user" Sample.start).
  intros n [<-|[<-|[]]]; reflexivity.
Defined.

(** The walk from the trigger of the looping graph exhausts every
    budget. *)
Lemma looping_walk_never_returns :
  forall fuel context (s : State Reference.World),
    executeNode (RT := Reference.runtime) Sample.looping fuel "t" context s
    = OutOfFuel.
Proof.
  induction fuel as [|fuel IH]; intros context s; [reflexivity|].
  cbn [executeNode].
  change (findNode Sample.looping "t") with (Some Sample.nTrigger).
  assert (exists r s1,
             visit (RT := Reference.runtime) Sample.nTrigger context s
             = Returned (Normal r) s1) as (r & s1 & V).
  { eexists _, _. reflexivity. }
  rewrite (bind_normal _ _ _ _ _ V).
  change (outgoing Sample.looping "t") with [Edge.make "e1" "t" "t"].
  cbn [forEach Edge.target]. unfold bind at 1 2. now rewrite IH.
Qed.

Lemma looping_execute_never_returns :
  forall fuel (s : State Reference.World),
    execute (RT := Reference.runtime) Sample.looping fuel s = OutOfFuel.
Proof.
  intros fuel s. unfold execute, tryCatch.
  destruct (log_run (RT := Reference.runtime) info
              (Text "Starting agent execution") None s) as (t1 & w1 & E1).
  rewrite (bind_normal _ _ _ _ _ E1).
  change (find (fun n => isTriggerType (Node.type n)) (nodes Sample.looping))
    with (Some Sample.nTrigger).
  unfold runFrom.
  match goal with
  | |- context [bind (labelOrType _) _ ?st] =>
      assert (labelOrType (World := Reference.World) Sample.nTrigger st
              = Returned (Normal (JStr "Start")) st) as E2 by reflexivity
  end.
  rewrite (bind_normal _ _ _ _ _ E2).
  match goal with
  | |- context [bind (template ?t ?v) _ ?st] =>
      assert (template (World := Reference.World) t v st
              = Returned (Normal (TextWith t v)) st) as E3 by reflexivity
  end.
  rewrite (bind_normal _ _ _ _ _ E3).
  match goal with
  | |- context [bind (log info ?m None) _ ?st] =>
      destruct (log_run (RT := Reference.runtime) info m None st)
        as (t4 & w4 & E4)
  end.
  rewrite (bind_normal _ _ _ _ _ E4).
  now rewrite (bind_fuel _ _ _ (looping_walk_never_returns fuel _ _)).
Qed.

(** C6, as stated, fails: with one trigger, no condition node and an edge
    from the trigger to itself, no budget lets the run return. *)
Lemma one_trigger_cycle_never_ends : ~ OneTriggerTerminates.
Proof.
  intros H.
  destruct (H (nodes Sample.looping) (edges Sample.looping) Sample.nTrigger
              eq_refl eq_refl) as (fuel & Hrun).
  apply Hrun. clear.
  unfold executeAgentWorkflow.
  destruct (newDate_run (RT := Reference.runtime)
              {| world := 0; journal := [] |}) as (t0 & w0 & E0).
  rewrite (bind_normal _ _ _ _ _ E0).
  unfold write at 1. unfold bind at 1. unfold tryCatch.
  change {| nodes := nodes Sample.looping; edges := edges Sample.looping |}
    with Sample.looping.
  now rewrite (bind_fuel _ _ _ (looping_execute_never_returns fuel _)).
Qed.

(** C6 (amended).  On a graph without cycles, whatever the number of its
    triggers, the run returns for every large enough budget; the status
    stored goes from [running] to one terminal value, [completed] when
    the run returns its document and [failed] when it throws, and the
    save of that status is the last write of the run. *)
Theorem acyclic_run_ends_in_a_terminal_status :
  forall World (RT : Runtime World) (nodeList : list Node.t)
         (edgeList : list Edge.t) (rank : string -> nat),
    Ranked {| nodes := nodeList; edges := edgeList |} rank ->
    exists fuel0,
      forall fuel, fuel0 <= fuel ->
      forall (agent user : string) (s : State World),
      exists c s' final stored before,
        executeAgentWorkflow fuel agent user nodeList edgeList s = Returned c s' /\
        journal s' = before ++ [Save final] /\
        Db.statusHistory (journal s')
        = Db.statusHistory (journal s) ++ [running; status final] /\
        Db.stored (journal s') = Some stored /\
        status stored = status final /\
        ((c = Normal final /\ status final = completed) \/
         (exists e, c = Throw e /\ status final = failed /\
                    errorMessage stored = Some (message e))).
Proof.
  intros World RT nodeList edgeList rank HR.
  exists (match find (fun n => isTriggerType (Node.type n)) nodeList with
          | Some trigger => S (rank (Node.id trigger))
          | None => 0
          end).
  intros fuel Hfuel agent user s.
  destruct (executeAgentWorkflow fuel agent user nodeList edgeList s)
    as [c s'|] eqn:E.
  2:{ exfalso. revert E. apply (workflow_returns _ _ _ _ _ rank HR).
      intros trigger F. rewrite F in Hfuel. lia. }
  destruct (workflow_run _ _ _ _ _ _ _ _ E) as (t0 & t1 & ws & final & J & P & C).
  destruct (stored_after_run (journal s) ws (freshExecution agent user t0) final P)
    as (stored & S0 & S1 & S2 & _).
  exists c, s', final, stored,
    (journal s ++ Insert (freshExecution agent user t0) :: ws).
  split; [reflexivity|]. rewrite J.
  split; [now rewrite <- app_assoc|].
  split.
  { rewrite statusHistory_app. cbn [Db.statusHistory].
    rewrite statusHistory_app, (statusHistory_pushes _ P). reflexivity. }
  split; [exact S0|]. split; [exact S1|].
  destruct C as [[-> ->]|(e & -> & ->)]; [left; now split|].
  right. exists e. rewrite S2. now repeat split.
Qed.

Lemma branching_is_ranked : Ranked Sample.branching Sample.branchingRank.
Proof.
  intros e [<-|[<-|[<-|[]]]]; cbn; lia.
Qed.

(** The statement applied to the branching sample and its rank. *)
Lemma acyclic_run_ends_in_a_terminal_status_witness :
  exists fuel0,
    forall fuel, fuel0 <= fuel ->
    forall (agent user : string) (s : State Reference.World),
    exists c s' final stored before,
      executeAgentWorkflow (RT := Reference.runtime) fuel agent user
        (nodes Sample.branching) (edges Sample.branching) s = Returned c s' /\
      journal s' = before ++ [Save final] /\
      Db.statusHistory (journal s')
      = Db.statusHistory (journal s) ++ [running; status final] /\
      Db.stored (journal s') = Some stored /\
      status stored = status final /\
      ((c = Normal final /\ status final = completed) \/
       (exists e, c = Throw e /\ status final = failed /\
                  errorMessage stored = Some (message e))).
Proof.
  apply (acyclic_run_ends_in_a_terminal_status
           Reference.World Reference.runtime
           (nodes Sample.branching) (edges Sample.branching) Sample.branchingRank).
  intros e [<-|[<-|[<-|[]]]]; cbn; lia.
Defined.

(** C9.  A target id that names no node is skipped: the call returns the
    context it was given and leaves the state as it was (no result, no
    log, no throw), and the loop over the edges goes on with the next
    edge. *)
Theorem dangling_target_is_skipped :
  forall World (RT : Runtime World) (this : AgentExecutor) (fuel : nat)
         (edge : Edge.t) (others : list Edge.t) (context : JsValue)
         (s : State World),
    findNode this (Edge.target edge) = None ->
    executeNode this (S fuel) (Edge.target edge) context s
    = Returned (Normal context) s /\
    forEach (edge :: others)
            (fun e => executeNode this (S fuel) (Edge.target e) context) s
    = forEach others
              (fun e => executeNode this (S fuel) (Edge.target e) context) s.
Proof.
  intros World RT this fuel edge others context s F.
  assert (executeNode this (S fuel) (Edge.target edge) context s
          = Returned (Normal context) s) as E.
  { cbn [executeNode]. now rewrite F. }
  split; [exact E|]. cbn [forEach].
  now rewrite (bind_normal _ _ _ _ _ E).
Qed.

(** The statement applied to the sample whose only edge has no target
    node. *)
Lemma dangling_target_is_skipped_witness :
  executeNode (RT := Reference.runtime) Sample.dangling 1 "ghost"
    (JObj [("k", JBool true)]) Sample.start
  = Returned (Normal (JObj [("k", JBool true)])) Sample.start /\
  forEach [Edge.make "e1" "t" "ghost"]
          (fun e => executeNode (RT := Reference.runtime) Sample.dangling 1
                      (Edge.target e) (JObj [("k", JBool true)])) Sample.start
  = forEach []
            (fun e => executeNode (RT := Reference.runtime) Sample.dangling 1
                        (Edge.target e) (JObj [("k", JBool true)])) Sample.start.
Proof.
  apply (dangling_target_is_skipped Reference.World Reference.runtime
           Sample.dangling 0 (Edge.make "e1" "t" "ghost") []
           (JObj [("k", JBool true)]) Sample.start).
  reflexivity.
Defined.

(** The search of [execute] stops at the first node of the trigger family
    in the order of the node array, whatever follows it. *)
Lemma first_trigger_is_the_entry :
  forall World (RT : Runtime World) (this : AgentExecutor)
         (before after : list Node.t) (trigger : Node.t) (fuel : nat)
         (s : State World),
    nodes this = before ++ trigger :: after ->
    (forall n, In n before -> isTriggerType (Node.type n) = false) ->
    isTriggerType (Node.type trigger) = true ->
    execute this fuel s
    = tryCatch
        (bind (log info (Text "Starting agent execution") None)
              (fun _ => runFrom this fuel trigger))
        (reportFailure (World := World)) s.
Proof.
  intros World RT this before after trigger fuel s Hnodes Hbefore Htrigger.
  unfold execute. rewrite Hnodes.
  now rewrite (find_first (fun n => isTriggerType (Node.type n))
                 before after trigger Hbefore Htrigger).
Qed.

(** With two triggers the run completes and holds one result, that of
    the first. *)
Example two_triggers_run :
  exists final s',
    executeAgentWorkflow (RT := Reference.runtime) 2 "agent" "user"
      (nodes Sample.twoTriggers) (edges Sample.twoTriggers) Sample.start
    = Returned (Normal final) s' /\
    status final = completed /\
    Sample.nodeIds (Db.pushedResults (journal s')) = [JStr "t"].
Proof.
  eexists _, _. split; [vm_compute; reflexivity|]. split; reflexivity.
Qed.

(** The unused methods of the class, run on the sample nodes:
    [executeApiCall] reads the request from [node.data] and merges the
    status, data and headers under [apiResponse]; [executeCondition]
    follows the second edge alone when the condition is false. *)
Example unused_methods_on_samples :
  (exists s',
      executeApiCall (RT := Sample.answering) Sample.nApi (JObj []) Sample.start
      = Returned
          (Normal (JObj [("apiResponse",
                          JObj [("status", JNum (JsNumber.ofZ 200));
                                ("data", JStr "payload");
                                ("headers", JObj [])])])) s') /\
  (exists r s',
      executeCondition (RT := Reference.runtime) Sample.branching 2
        Sample.nCondition (JObj []) Sample.start
      = Returned (Normal r) s' /\
      Sample.nodeIds (Db.pushedResults (journal s')) = [JStr "no"]).
Proof.
  split.
  - eexists. vm_compute. reflexivity.
  - eexists _, _. split; vm_compute; reflexivity.
Qed.

(* ================================================================= *)
(** * Further properties of the evaluator *)

Lemma includes_second (s : string) (a b : ascii) (p : string) :
  JsString.includes s (String a (String b p)) = true ->
  JsString.mem b s = true.
Proof.
  induction s as [|d s IH]; cbn [JsString.includes]; intros H.
  - apply orb_true_iff in H as [H|H]; discriminate.
  - cbn [JsString.mem]. apply orb_true_iff in H as [H|H].
    + cbn [String.prefix] in H. destruct (ascii_dec a d); [|discriminate].
      destruct s as [|d2 s]; [discriminate|].
      cbn [String.prefix] in H. destruct (ascii_dec b d2) as [->|]; [|discriminate].
      cbn [JsString.mem]. now rewrite Ascii.eqb_refl, !orb_true_r.
    + rewrite (IH H). apply orb_true_r.
Qed.

Lemma includes_mem_first (s : string) (a : ascii) (p : string) :
  JsString.includes s (String a p) = true -> JsString.mem a s = true.
Proof.
  induction s as [|d s IH]; cbn [JsString.includes]; intros H.
  - apply orb_true_iff in H as [H|H]; discriminate.
  - cbn [JsString.mem]. apply orb_true_iff in H as [H|H].
    + cbn [String.prefix] in H. destruct (ascii_dec a d) as [->|]; [|discriminate].
      now rewrite Ascii.eqb_refl.
    + rewrite (IH H). apply orb_true_r.
Qed.

(** X1.  A condition that holds none of the characters [=], [>] and [<]
    has no operator and evaluates to [false], in every context. *)
Theorem condition_without_comparison_is_false :
  forall condition context,
    JsString.mem "="%char condition = false ->
    JsString.mem ">"%char condition = false ->
    JsString.mem "<"%char condition = false ->
    evaluateSimpleCondition condition context = Normal false.
Proof.
  intros condition context He Hg Hl.
  rewrite evaluateSimpleCondition_matched.
  destruct (matchedOperator condition) as [op|] eqn:M; [exfalso|reflexivity].
  destruct (matchedOperator_cases _ _ M) as [Hinc [-> | [-> | [-> | ->]]]].
  - apply includes_mem_first in Hinc. congruence.
  - apply includes_second in Hinc. congruence.
  - apply includes_mem_first in Hinc. congruence.
  - apply includes_mem_first in Hinc. congruence.
Qed.

(** The rule applied to a condition made of one word. *)
Lemma condition_without_comparison_is_false_witness :
  evaluateSimpleCondition "approved"
    (JObj [("approved", JBool true)]) = Normal false.
Proof.
  apply (condition_without_comparison_is_false "approved"
           (JObj [("approved", JBool true)])); reflexivity.
Defined.

(** X2.  Whatever the text of the operator, the comparison of a value
    (undefined, null, a boolean, a number, a string or a plain object)
    with an operand that [parseValue] produced throws in one case only:
    the value is an object that has a property [toString] of its own,
    which hides the inherited method the comparison converts the object
    with. *)
Theorem comparison_throws_only_on_own_toString :
  forall (value : JsValue) (operand op : string) (e : JsError),
    compareValues value (parseValue operand) op = Throw e ->
    exists ps x, value = JObj ps /\ JsObject.lookup "toString" ps = Some x.
Proof.
  intros value operand op e H.
  pose proof (parseValue_typed operand) as Hv.
  destruct (parseValue operand) as [| |b'|m|t'|ps']; inversion Hv; subst.
  all: destruct value as [| |b|n|t|ps].
  all: try (destruct (JsObject.lookup "toString" ps) as [x|] eqn:L;
            [now exists ps, x|]).
  all: exfalso; unfold compareValues in H.
  all: repeat match type of H with
         | (if ?c then _ else _) = _ => destruct c
         end.
  all: unfold JsCompare.looseEq, JsCompare.gt, JsCompare.lt, JsCompare.ge,
         JsCompare.le, JsCompare.lessThan, JsCompare.toPrimitive,
         JsCompare.boolAsNumber, JsCompare.mapC in H;
       try rewrite L in H; try (destruct b); try (destruct b');
       discriminate H.
Qed.

(** The statement applied to an object with a [toString] entry. *)
Lemma comparison_throws_only_on_own_toString_witness :
  exists ps x,
    JObj [("toString", JBool true)] = JObj ps /\
    JsObject.lookup "toString" ps = Some x.
Proof.
  apply (comparison_throws_only_on_own_toString
           (JObj [("toString", JBool true)]) "1" ">="
           (TypeErrorOf "Cannot convert object to primitive value")).
  reflexivity.
Defined.

Lemma number_eqb_refl (n : JsNumber) :
  JsNumber.isNaN n = false -> JsNumber.eqb n n = true.
Proof.
  destruct n; simpl; try reflexivity; try discriminate.
  intros _. apply Qeq_bool_iff. reflexivity.
Qed.

(** X3.  A string of the context is loosely equal to the literal written
    with the same text, quoted or not, unless the text is [true] or
    [false] (those literals become booleans, and a boolean is compared as
    a number). *)
Theorem string_equals_its_own_literal :
  forall text,
    JsString.removeQuotes text = text ->
    text <> "true" -> text <> "false" ->
    compareValues (JStr text) (parseValue text) "==" = Normal true /\
    forall q, JsString.isQuote q = true ->
      compareValues (JStr text)
        (parseValue (String q (text ++ String q EmptyString))) "=="
      = Normal true.
Proof.
  intros text Hq Ht Hf.
  assert (compareValues (JStr text) (parseValue text) "==" = Normal true) as E.
  { unfold parseValue. rewrite Hq.
    destruct (JsNumber.isNaN (JsNumber.ofString text)) eqn:N; cbn [negb].
    - apply String.eqb_neq in Ht, Hf. rewrite Ht, Hf.
      unfold compareValues. cbn. now rewrite String.eqb_refl.
    - unfold compareValues. cbn. now rewrite number_eqb_refl. }
  split; [exact E|]. intros q Q. now rewrite parseValue_quoted.
Qed.

(** The rule applied to the text [active]; the text [true] is the
    exception. *)
Lemma string_equals_its_own_literal_witness :
  (compareValues (JStr "active") (parseValue "active") "==" = Normal true /\
   forall q, JsString.isQuote q = true ->
     compareValues (JStr "active")
       (parseValue (String q ("active" ++ String q EmptyString))) "=="
     = Normal true) /\
  compareValues (JStr "true") (parseValue "true") "==" = Normal false.
Proof.
  split; [|reflexivity].
  apply (string_equals_its_own_literal "active"); [reflexivity| |];
    discriminate.
Defined.

Lemma fold_optGet_undefined (keys : list string) :
  fold_left JsObject.optGet keys JUndefined = JUndefined.
Proof. induction keys as [|k keys IH]; simpl; [reflexivity|exact IH]. Qed.

Lemma fold_optGet_null (keys : list string) :
  keys <> [] -> fold_left JsObject.optGet keys JNull = JUndefined.
Proof.
  destruct keys as [|k keys]; [congruence|]. intros _. simpl.
  apply fold_optGet_undefined.
Qed.

(** X4.  Once a component of a dotted key resolves to [undefined] or
    [null], the whole key resolves to [undefined], whatever follows: the
    lookup does not throw on a missing intermediate object. *)
Theorem missing_component_short_circuits :
  forall key rest context,
    JsString.mem "."%char key = false ->
    JsObject.optGet context key = JUndefined \/
    JsObject.optGet context key = JNull ->
    getContextValue (key ++ String "."%char rest) context = JUndefined.
Proof.
  intros key rest context Hk H.
  rewrite getContextValue_component by exact Hk.
  unfold getContextValue, JsString.split.
  destruct H as [-> | ->]; [apply fold_optGet_undefined|].
  apply fold_optGet_null. apply split_go_not_nil.
Qed.

(** The statement applied to [user.address.city] where [user] is
    [null]. *)
Lemma missing_component_short_circuits_witness :
  getContextValue ("user" ++ String "."%char "address.city")
    (JObj [("user", JNull)]) = JUndefined.
Proof.
  apply (missing_component_short_circuits "user" "address.city"
           (JObj [("user", JNull)])); [reflexivity|].
  right. reflexivity.
Defined.

(** X5.  A key of two components without a dot of their own reads the
    second component in what the first one reads in the context. *)
Theorem two_component_key :
  forall outer inner context,
    JsString.mem "."%char outer = false ->
    JsString.mem "."%char inner = false ->
    getContextValue (outer ++ String "."%char inner) context
    = JsObject.optGet (JsObject.optGet context outer) inner.
Proof.
  intros outer inner context Ho Hi.
  rewrite getContextValue_component by exact Ho.
  now apply getContextValue_key.
Qed.

(** The statement applied to the length of a string of the context. *)
Lemma two_component_key_witness :
  getContextValue ("name" ++ String "."%char "length")
    (JObj [("name", JStr "abc")])
  = JsObject.optGet (JsObject.optGet (JObj [("name", JStr "abc")]) "name") "length".
Proof.
  apply (two_component_key "name" "length" (JObj [("name", JStr "abc")]));
    reflexivity.
Defined.

(* ================================================================= *)
(** * Further properties of the handlers and of the walker *)

Lemma lookup_set_same (k : string) (v : JsValue) (ps : list (string * JsValue)) :
  JsObject.lookup k (JsObject.set k v ps) = Some v.
Proof.
  induction ps as [|[k' v'] ps IH]; simpl.
  - now rewrite String.eqb_refl.
  - destruct (String.eqb k k') eqn:E; simpl.
    + now rewrite String.eqb_refl.
    + now rewrite E.
Qed.

Lemma lookup_set_other (k k' : string) (v : JsValue) (ps : list (string * JsValue)) :
  k' <> k ->
  JsObject.lookup k' (JsObject.set k v ps) = JsObject.lookup k' ps.
Proof.
  intros N. induction ps as [|[k0 v0] ps IH]; simpl.
  - apply String.eqb_neq in N. now rewrite N.
  - destruct (String.eqb k k0) eqn:E; simpl.
    + apply String.eqb_eq in E. subst k0.
      apply String.eqb_neq in N. now rewrite N.
    + destruct (String.eqb k' k0); [reflexivity|exact IH].
Qed.

Lemma get_spreadWith_same (context : JsValue) (k : string) (v : JsValue) :
  JsObject.get (JsObject.spreadWith context k v) k = v.
Proof.
  unfold JsObject.spreadWith, JsObject.get. now rewrite lookup_set_same.
Qed.

Lemma get_spreadWith_other (ps : list (string * JsValue)) (k k' : string)
      (v : JsValue) :
  k' <> k ->
  JsObject.get (JsObject.spreadWith (JObj ps) k v) k'
  = JsObject.get (JObj ps) k'.
Proof.
  intros N. unfold JsObject.spreadWith, JsObject.get, JsObject.spread.
  now rewrite lookup_set_other.
Qed.

(** X6.  When the request is answered, [apiCallNode] returns an object
    that reads the answer's [data] under [apiResult] and, under every
    other key, what the context read there; nothing is written to the
    execution document. *)
Theorem apiCallNode_keeps_other_keys :
  forall World (RT : Runtime World) (node : JsValue)
         (props : list (string * JsValue)) (s : State World)
         (res : AxiosResponse) (w : World),
    axios (apiCallRequest node) (world s) = (Normal res, w) ->
    exists r,
      apiCallNode node (JObj props) s
      = Returned (Normal r) {| world := w; journal := journal s |} /\
      JsObject.get r "apiResult" = resData res /\
      forall k, k <> "apiResult" ->
                JsObject.get r k = JsObject.get (JObj props) k.
Proof.
  intros World RT node props s res w H.
  exists (JsObject.spreadWith (JObj props) "apiResult" (resData res)).
  rewrite apiCallNode_run, H. split; [reflexivity|].
  split; [apply get_spreadWith_same|].
  intros k N. now apply get_spreadWith_other.
Qed.

(** The statement applied to the answering client of the samples. *)
Lemma apiCallNode_keeps_other_keys_witness :
  exists r,
    apiCallNode (RT := Sample.answering) (Node.toJs Sample.nApi)
      (JObj [("seen", JBool true)]) Sample.start
    = Returned (Normal r) {| world := 0; journal := journal Sample.start |} /\
    JsObject.get r "apiResult" = JStr "payload" /\
    forall k, k <> "apiResult" ->
              JsObject.get r k = JsObject.get (JObj [("seen", JBool true)]) k.
Proof.
  apply (apiCallNode_keeps_other_keys Reference.World Sample.answering
           (Node.toJs Sample.nApi) [("seen", JBool true)] Sample.start
           {| resStatus := JNum (JsNumber.ofZ 200);
              resData := JStr "payload";
              resHeaders := JObj [] |} 0).
  reflexivity.
Defined.

Lemma apiCall_type_is_not_trigger (t : string) :
  isApiCallType t = true -> isTriggerType t = false.
Proof.
  unfold isApiCallType, isTriggerType. intros H.
  apply orb_true_iff in H as [H|H]; apply String.eqb_eq in H; subst t;
    reflexivity.
Qed.

(** X7.  A node of type [apiCall] or [action] never aborts the run at its
    handler: whatever the HTTP client does, the dispatch completes
    normally, writes nothing, and returns either the context as it came
    or the context with an [apiResult]. *)
Theorem api_node_never_aborts :
  forall World (RT : Runtime World) (node : Node.t) (context : JsValue)
         (s : State World),
    isApiCallType (Node.type node) = true ->
    exists r w,
      dispatch node context s
      = Returned (Normal r) {| world := w; journal := journal s |} /\
      (r = context \/
       exists res, r = JsObject.spreadWith context "apiResult" (resData res)).
Proof.
  intros World RT node context s H.
  unfold dispatch. rewrite (apiCall_type_is_not_trigger _ H), H.
  rewrite apiCallNode_run.
  destruct (axios (apiCallRequest (Node.toJs node)) (world s)) as [[res|e] w].
  - eexists _, w. split; [reflexivity|]. right. now exists res.
  - eexists _, w. split; [reflexivity|]. now left.
Qed.

(** The statement applied to the API node of the samples, whose request
    the reference client rejects. *)
Lemma api_node_never_aborts_witness :
  exists r w,
    dispatch (RT := Reference.runtime) Sample.nApi (JObj []) Sample.start
    = Returned (Normal r) {| world := w; journal := journal Sample.start |} /\
    (r = JObj [] \/
     exists res, r = JsObject.spreadWith (JObj []) "apiResult" (resData res)).
Proof.
  apply (api_node_never_aborts Reference.World Reference.runtime Sample.nApi
           (JObj []) Sample.start).
  reflexivity.
Defined.

(** X8.  For a node whose type belongs to none of the four families, the
    visit fails only where reading the label of the node fails (the data
    is [undefined] or [null]) or where the label shown does not convert
    to a string, and it then throws before any write.  Otherwise the
    unknown type is not fatal: the visit logs the node, logs one warning,
    pushes a result that holds the context unchanged, and returns that
    context. *)
Theorem unknown_type_passes_context :
  forall World (RT : Runtime World) (node : Node.t) (context : JsValue)
         (s : State World),
    isTriggerType (Node.type node) = false ->
    isApiCallType (Node.type node) = false ->
    isConditionType (Node.type node) = false ->
    isAiType (Node.type node) = false ->
    match readLabel node with
    | Throw e => visit node context s = Returned (Throw e) s
    | Normal label =>
        match JsCompare.toPrimitive
                (JsObject.orElse label (JStr (Node.type node))) with
        | Throw e => visit node context s = Returned (Throw e) s
        | Normal _ =>
            exists t1 t2 w,
              visit node context s
              = Returned (Normal context)
                  {| world := w;
                     journal := journal s ++
                       [PushLog (logEntry t1 info
                                   (TextWith "Executing node: "
                                      (JsObject.orElse label
                                         (JStr (Node.type node))))
                                   None);
                        PushLog (logEntry t2 warning
                                   (TextWith "Unknown node type: "
                                      (JStr (Node.type node)))
                                   None);
                        PushResult (nodeResult node label context)] |}
        end
    end.
Proof.
  intros World RT node context s T A C I.
  unfold visit.
  destruct (readLabel node) as [label|e] eqn:L.
  2:{ assert (labelOrType node s = Returned (Throw e) s) as E0.
      { unfold labelOrType, dataLabel, pure, bind. now rewrite L. }
      now rewrite (bind_throw _ _ _ _ _ E0). }
  assert (labelOrType node s
          = Returned (Normal (JsObject.orElse label (JStr (Node.type node)))) s)
    as E0.
  { unfold labelOrType, dataLabel, pure, bind. now rewrite L. }
  rewrite (bind_normal _ _ _ _ _ E0).
  destruct (JsCompare.toPrimitive
              (JsObject.orElse label (JStr (Node.type node)))) as [shown|e] eqn:P.
  2:{ assert (template "Executing node: "
                (JsObject.orElse label (JStr (Node.type node))) s
              = Returned (Throw e) s) as ET.
      { unfold template, pure. now rewrite P. }
      now rewrite (bind_throw _ _ _ _ _ ET). }
  assert (template "Executing node: "
            (JsObject.orElse label (JStr (Node.type node))) s
          = Returned (Normal (TextWith "Executing node: "
                                (JsObject.orElse label (JStr (Node.type node))))) s)
    as ET.
  { unfold template, pure. now rewrite P. }
  rewrite (bind_normal _ _ _ _ _ ET).
  destruct (log_run info (TextWith "Executing node: "
                            (JsObject.orElse label (JStr (Node.type node))))
              None s) as (t1 & w1 & E1).
  rewrite (bind_normal _ _ _ _ _ E1).
  unfold dispatch. rewrite T, A, C, I.
  match goal with
  | |- context [bind (bind (log warning ?m None) _) _ ?st] =>
      destruct (log_run warning m None st) as (t2 & w2 & E2)
  end.
  match goal with
  | |- context [bind (bind (log warning ?m None) ?k) _ ?st] =>
      assert (bind (log warning m None) k st
              = Returned (Normal context)
                  {| world := w2;
                     journal := journal st ++
                       [PushLog {| timestamp := t2; level := warning;
                                   logMessage := m; logData := None |}] |})
        as EW by (now rewrite (bind_normal _ _ _ _ _ E2))
  end.
  rewrite (bind_normal _ _ _ _ _ EW).
  assert (forall s1 : State World,
             dataLabel node s1 = Returned (Normal label) s1) as ED.
  { intros s1. unfold dataLabel, pure. now rewrite L. }
  rewrite (bind_normal _ _ _ _ _ (ED _)).
  unfold bind, addResult, write, ret. cbn [journal world].
  exists t1, t2, w2. unfold logEntry. now rewrite <- !app_assoc.
Qed.

(** The statement applied to the [notify] node of the samples, which
    returns, and to a node of the same type that has no data, which
    throws. *)
Lemma unknown_type_passes_context_witness :
  (exists t1 t2 w,
      visit (RT := Reference.runtime) Sample.nYes (JObj [("k", JNull)])
        Sample.start
      = Returned (Normal (JObj [("k", JNull)]))
          {| world := w;
             journal := journal Sample.start ++
               [PushLog (logEntry t1 info
                           (TextWith "Executing node: "
                              (JsObject.orElse (JStr "Yes")
                                 (JStr (Node.type Sample.nYes))))
                           None);
                PushLog (logEntry t2 warning
                           (TextWith "Unknown node type: "
                              (JStr (Node.type Sample.nYes)))
                           None);
                PushResult (nodeResult Sample.nYes (JStr "Yes")
                              (JObj [("k", JNull)]))] |}) /\
  visit (RT := Reference.runtime) (Node.make "n" "notify" JNull) (JObj [])
    Sample.start
  = Returned
      (Throw (TypeErrorOf "Cannot read properties of null (reading 'label')"))
      Sample.start.
Proof.
  split.
  - exact (unknown_type_passes_context Reference.World Reference.runtime
             Sample.nYes (JObj [("k", JNull)]) Sample.start
             eq_refl eq_refl eq_refl eq_refl).
  - exact (unknown_type_passes_context Reference.World Reference.runtime
             (Node.make "n" "notify" JNull) (JObj []) Sample.start
             eq_refl eq_refl eq_refl eq_refl).
Defined.

(** X9.  [executeNode] returns the context its own node produced, not
    what the walks from the successors return. *)
Theorem executeNode_returns_own_result :
  forall World (RT : Runtime World) (this : AgentExecutor) (fuel : nat)
         (nodeId : string) (node : Node.t) (context : JsValue)
         (s : State World) r s',
    findNode this nodeId = Some node ->
    executeNode this (S fuel) nodeId context s = Returned (Normal r) s' ->
    exists s1, visit node context s = Returned (Normal r) s1.
Proof.
  intros World RT this fuel nodeId node context s r s' F H.
  cbn [executeNode] in H. rewrite F in H.
  apply bind_returned in H as [(e & _ & E)|(r1 & s1 & V & K)]; [discriminate|].
  apply bind_returned in K as [(e & _ & E)|(u & s2 & _ & R)]; [discriminate|].
  inversion R; subst. now exists s1.
Qed.

(** The statement applied to the walk of the branching sample. *)
Lemma executeNode_returns_own_result_witness :
  exists r s' s1,
    executeNode (RT := Reference.runtime) Sample.branching 3 "t" (JObj [])
      Sample.start = Returned (Normal r) s' /\
    visit (RT := Reference.runtime) Sample.nTrigger (JObj []) Sample.start
    = Returned (Normal r) s1.
Proof.
  eexists _, _.
  assert (executeNode (RT := Reference.runtime) Sample.branching 3 "t" (JObj [])
            Sample.start = Returned (Normal _) _) as E
    by (vm_compute; reflexivity).
  destruct (executeNode_returns_own_result Reference.World Reference.runtime
              Sample.branching 2 "t" Sample.nTrigger (JObj []) Sample.start
              _ _ eq_refl E) as (s1 & V).
  exists s1. split; [exact E|exact V].
Defined.

(* ================================================================= *)
(** * Further properties of the run and of the stored document *)

Section RunFacts.

Context {World : Type} {RT : Runtime World}.
Variable this : AgentExecutor.

Lemma resultIds_app (ws1 ws2 : list DbWrite) :
  resultIds (ws1 ++ ws2) = resultIds ws1 ++ resultIds ws2.
Proof. unfold resultIds. now rewrite pushedResults_app, map_app. Qed.

Lemma resultIds_logs (ws : list DbWrite) :
  forallb isLog ws = true -> resultIds ws = [].
Proof. intros H. unfold resultIds. now rewrite pushedResults_logs. Qed.

Lemma emitting_ret {A} (a : A) : Emitting (ret (World := World) a) [].
Proof.
  intros s c s' H. inversion H; subst. exists [].
  now rewrite app_nil_r.
Qed.

Lemma emitting_pure {A} (c0 : Completion A) : Emitting (pure (World := World) c0) [].
Proof.
  intros s c s' H. inversion H; subst. exists [].
  rewrite app_nil_r. split; [reflexivity|]. destruct c; [reflexivity|now exists []].
Qed.

Lemma emitting_throw {A} (e : JsError) (ids : list string) :
  Emitting (throw (World := World) (A := A) e) ids.
Proof.
  intros s c s' H. inversion H; subst. exists [].
  rewrite app_nil_r. split; [reflexivity|]. now exists (map JStr ids).
Qed.

Lemma emitting_log (lvl : Level) (msg : Message) (data : option JsValue) :
  Emitting (log lvl msg data) [].
Proof.
  intros s c s' H.
  destruct (log_run lvl msg data s) as (t & w & E).
  rewrite E in H. inversion H; subst. eexists [_]. cbn [journal].
  now split.
Qed.

Lemma emitting_bind {A B} (m : M World A) (k : A -> M World B)
      (ids1 ids2 : list string) :
  Emitting m ids1 ->
  (forall a, Emitting (k a) ids2) ->
  Emitting (bind m k) (ids1 ++ ids2).
Proof.
  intros Hm Hk s c s' H.
  apply bind_returned in H as [(e & E & ->)|(a & s1 & E & K)].
  - destruct (Hm _ _ _ E) as (ws & J & rest & R).
    exists ws. split; [exact J|].
    exists (rest ++ map JStr ids2). now rewrite map_app, R, app_assoc.
  - destruct (Hm _ _ _ E) as (ws1 & J1 & R1).
    destruct (Hk a _ _ _ K) as (ws2 & J2 & R2).
    exists (ws1 ++ ws2). rewrite J2, J1, <- app_assoc. split; [reflexivity|].
    rewrite resultIds_app, map_app, R1.
    destruct c as [b|e]; [now rewrite R2|].
    destruct R2 as (rest & R2). exists rest. now rewrite R2, app_assoc.
Qed.

Lemma emitting_tryCatch {A} (m : M World A) (h : JsError -> M World A)
      (ids : list string) :
  Emitting m ids ->
  (forall e, Emitting (h e) []) ->
  (forall e s c s', h e s = Returned c s' -> exists e', c = Throw e') ->
  Emitting (tryCatch m h) ids.
Proof.
  intros Hm Hh Hthrows s c s' H. unfold tryCatch in H.
  destruct (m s) as [[a|e] s1|] eqn:E; [| |discriminate].
  - inversion H; subst. exact (Hm _ _ _ E).
  - destruct (Hm _ _ _ E) as (ws1 & J1 & rest & R1).
    destruct (Hthrows _ _ _ _ H) as (e' & ->).
    destruct (Hh e _ _ _ H) as (ws2 & J2 & rest2 & R2).
    exists (ws1 ++ ws2). rewrite J2, J1, <- app_assoc. split; [reflexivity|].
    exists rest. rewrite resultIds_app.
    symmetry in R2. apply app_eq_nil in R2 as [-> _].
    now rewrite app_nil_r.
Qed.

Lemma emitting_forEach {A B} (xs : list A) (body : A -> M World B)
      (f : A -> list string) :
  (forall x, In x xs -> Emitting (body x) (f x)) ->
  Emitting (forEach xs body) (flat_map f xs).
Proof.
  induction xs as [|x xs IH]; intros Hb; cbn [forEach flat_map].
  - apply emitting_ret.
  - apply emitting_bind.
    + apply Hb. now left.
    + intros _. apply IH. intros y Hy. apply Hb. now right.
Qed.

Lemma emitting_visit (node : Node.t) (context : JsValue) :
  Emitting (visit node context) [Node.id node].
Proof.
  intros s c s' H.
  destruct (visit_run node context s) as (w & ws & F & [(e & E)|(r & label & E)]);
    rewrite E in H; inversion H; subst; cbn [journal].
  - exists ws. split; [reflexivity|]. rewrite (resultIds_logs _ F). now eexists.
  - exists (ws ++ [PushResult (nodeResult node label r)]).
    split; [reflexivity|]. now rewrite resultIds_app, (resultIds_logs _ F).
Qed.

(** The results of a walk come in the order of [preorder]. *)
Lemma emitting_executeNode (fuel : nat) :
  forall nodeId context,
    Emitting (executeNode this fuel nodeId context) (preorder this fuel nodeId).
Proof.
  induction fuel as [|fuel IH]; intros nodeId context.
  - intros s c s' H. discriminate.
  - cbn [executeNode preorder].
    destruct (findNode this nodeId) as [node|] eqn:F; [|apply emitting_ret].
    change (Node.id node :: ?l) with ([Node.id node] ++ l).
    apply emitting_bind; [apply emitting_visit|].
    intros r.
    rewrite <- (app_nil_r (flat_map _ _)).
    apply emitting_bind; [|intros _; apply emitting_ret].
    apply emitting_forEach. intros e _. apply IH.
Qed.

Lemma emitting_execute (fuel : nat) :
  Emitting (execute this fuel) (entryOrder this fuel).
Proof.
  unfold execute, entryOrder. apply emitting_tryCatch.
  - change (match find _ (nodes this) with
            | Some t => preorder this fuel (Node.id t) | None => [] end)
      with ([] ++ match find (fun n => isTriggerType (Node.type n)) (nodes this) with
                  | Some t => preorder this fuel (Node.id t) | None => [] end).
    apply emitting_bind; [apply emitting_log|].
    intros _. destruct (find _ (nodes this)) as [t|]; [|apply emitting_throw].
    unfold runFrom, labelOrType, dataLabel, template.
    replace (preorder this fuel (Node.id t))
      with (([] ++ []) ++ [] ++ [] ++ preorder this fuel (Node.id t) ++ [] ++ [])
      by (cbn [app]; now rewrite app_nil_r).
    apply emitting_bind.
    { apply emitting_bind; [apply emitting_pure|intros; apply emitting_ret]. }
    intros shown. apply emitting_bind; [apply emitting_pure|].
    intros msg. apply emitting_bind; [apply emitting_log|].
    intros _. apply emitting_bind; [apply emitting_executeNode|].
    intros r. apply emitting_bind; [apply emitting_log|].
    intros _. apply emitting_ret.
  - intros e. unfold reportFailure. change (@nil string) with (@nil string ++ []).
    apply emitting_bind; [apply emitting_log|intros _; apply emitting_throw].
  - intros e s c s' H. exists e. exact (reportFailure_throws _ _ _ _ H).
Qed.

Lemma runFrom_normal (fuel : nat) (trigger : Node.t) (s : State World) r s' :
  runFrom this fuel trigger s = Returned (Normal r) s' ->
  exists mid tN,
    journal s' = journal s ++ mid ++ [PushLog (closingLog tN (Normal r))] /\
    forallb isPush mid = true.
Proof.
  unfold runFrom. intros H.
  apply bind_returned in H as [(e & _ & E)|(shown & s1 & E1 & H)]; [discriminate|].
  assert (s1 = s) as ->.
  { unfold labelOrType, dataLabel, pure, bind, ret in E1.
    destruct (readLabel trigger); now inversion E1. }
  apply bind_returned in H as [(e & _ & E)|(msg & s2 & E2 & H)]; [discriminate|].
  assert (s2 = s) as -> by (unfold template, pure in E2; now inversion E2).
  apply bind_returned in H as [(e & _ & E)|(u & s3 & E3 & H)]; [discriminate|].
  apply bind_returned in H as [(e & _ & E)|(res & s4 & E4 & H)]; [discriminate|].
  destruct (log_run info msg None s) as (t3 & w3 & L3).
  rewrite L3 in E3. inversion E3; subst s3. clear E3.
  destruct (pushing_executeNode this fuel _ _ _ _ _ E4) as (ws & J4 & P4 & _).
  destruct (log_run info (Text "Agent execution completed successfully") None s4)
    as (tN & wN & LN).
  rewrite (bind_normal _ _ _ _ _ LN) in H. inversion H; subst. cbn [journal] in *.
  eexists (_ :: ws), tN. rewrite J4. cbn [closingLog logEntry].
  rewrite <- !app_assoc. split; [reflexivity|]. exact P4.
Qed.

(** The writes of [execute]: its first log, pushes, and a closing log
    that tells how it ended. *)
Lemma execute_shape (fuel : nat) (s : State World) c s' :
  execute this fuel s = Returned c s' ->
  exists t0 tN mid,
    journal s'
    = journal s ++
        PushLog (logEntry t0 info (Text "Starting agent execution") None)
        :: mid ++ [PushLog (closingLog tN c)] /\
    forallb isPush mid = true.
Proof.
  unfold execute, tryCatch. intros H.
  destruct (log_run info (Text "Starting agent execution") None s)
    as (t0 & w0 & E0).
  rewrite (bind_normal _ _ _ _ _ E0) in H.
  set (s1 := {| world := w0;
                journal := journal s ++
                  [PushLog {| timestamp := t0; level := info;
                              logMessage := Text "Starting agent execution";
                              logData := None |}] |}) in *.
  assert (forall e s2 mid,
             journal s2 = journal s1 ++ mid -> forallb isPush mid = true ->
             reportFailure e s2 = Returned c s' ->
             exists t0 tN mid,
               journal s'
               = journal s ++
                   PushLog (logEntry t0 info (Text "Starting agent execution") None)
                   :: mid ++ [PushLog (closingLog tN c)] /\
               forallb isPush mid = true) as Hfail.
  { intros e s2 mid J P R. pose proof (reportFailure_throws _ _ _ _ R) as ->.
    unfold reportFailure in R.
    destruct (log_run error (Text "Agent execution failed")
                (Some (JObj [("error", JStr (message e))])) s2) as (tN & wN & LN).
    rewrite (bind_normal _ _ _ _ _ LN) in R. inversion R; subst s'.
    exists t0, tN, mid. cbn [journal]. rewrite J. subst s1. cbn [journal].
    rewrite <- !app_assoc. now split. }
  destruct (find (fun n => isTriggerType (Node.type n)) (nodes this)) as [t|].
  - destruct (runFrom this fuel t s1) as [[r|e] s2|] eqn:R; [| |discriminate].
    + inversion H; subst c s'.
      destruct (runFrom_normal _ _ _ _ _ R) as (mid & tN & J & P).
      exists t0, tN, mid. rewrite J. subst s1. cbn [journal].
      rewrite <- !app_assoc. now split.
    + destruct (pushing_runFrom this fuel t _ _ _ R) as (mid & J & P & _).
      exact (Hfail e s2 mid J P H).
  - unfold throw at 1 in H.
    apply (Hfail (ErrorOf "No trigger node found") s1 []);
      [now rewrite app_nil_r|reflexivity|exact H].
Qed.

End RunFacts.

Lemma fold_pushes (ws : list DbWrite) :
  forall doc,
    forallb isPush ws = true ->
    fold_left Db.apply ws (Some doc) = Some (withPushes doc ws).
Proof.
  induction ws as [|w ws IH]; intros doc H; cbn [fold_left].
  - unfold withPushes. cbn. rewrite !app_nil_r. now destruct doc.
  - cbn [forallb] in H. apply andb_true_iff in H as [Hw Hws].
    destruct w; try discriminate; cbn [Db.apply]; rewrite IH by exact Hws;
      unfold withPushes; cbn; now rewrite <- !app_assoc.
Qed.

(** The document stored after an insertion, pushes and one save. *)
Lemma stored_run (j ws : list DbWrite) (doc final : Execution) :
  forallb isPush ws = true ->
  Db.stored (j ++ Insert doc :: ws ++ [Save final])
  = Some (savedOver (withPushes doc ws) final).
Proof.
  intros P. rewrite stored_app. cbn [fold_left].
  replace (Db.apply (Db.stored j) (Insert doc)) with (Some doc)
    by now destruct (Db.stored j).
  rewrite fold_left_app, (fold_pushes ws doc P). reflexivity.
Qed.

(** A run of [executeAgentWorkflow] that returns is a run of [execute]
    between the insertion of the running document and the save of the
    terminal one. *)
Lemma workflow_execute {World} {RT : Runtime World} (fuel : nat)
      (agent user : string) (nodeList : list Node.t) (edgeList : list Edge.t)
      (s : State World) c s' :
  executeAgentWorkflow fuel agent user nodeList edgeList s = Returned c s' ->
  exists t0 w0 cx s2 t1,
    execute {| nodes := nodeList; edges := edgeList |} fuel
      {| world := w0;
         journal := journal s ++ [Insert (freshExecution agent user t0)] |}
    = Returned cx s2 /\
    match cx with
    | Normal _ =>
        c = Normal (finish (freshExecution agent user t0) completed t1
                      (Some (t1 - t0)%Z) None) /\
        journal s'
        = journal s2 ++
            [Save (finish (freshExecution agent user t0) completed t1
                     (Some (t1 - t0)%Z) None)]
    | Throw e =>
        c = Throw e /\
        journal s'
        = journal s2 ++
            [Save (finish (freshExecution agent user t0) failed t1 None
                     (Some (message e)))]
    end.
Proof.
  unfold executeAgentWorkflow. intros H.
  destruct (newDate_run s) as (t0 & w0 & E0).
  rewrite (bind_normal _ _ _ _ _ E0) in H.
  fold (freshExecution agent user t0) in H.
  unfold write at 1 in H. unfold bind at 1 in H. cbn [journal world] in H.
  unfold tryCatch in H.
  destruct (execute {| nodes := nodeList; edges := edgeList |} fuel
              {| world := w0;
                 journal := journal s ++ [Insert (freshExecution agent user t0)] |})
    as [[r|e] s2|] eqn:EX.
  - rewrite (bind_normal _ _ _ _ _ EX) in H.
    destruct (newDate_run s2) as (t1 & w1 & E1).
    rewrite (bind_normal _ _ _ _ _ E1) in H.
    unfold write, bind, ret in H. cbn [journal world] in H.
    inversion H; subst c s'.
    exists t0, w0, (Normal r), s2, t1. split; [exact EX|]. now split.
  - rewrite (bind_throw _ _ _ _ _ EX) in H.
    destruct (newDate_run s2) as (t1 & w1 & E1).
    rewrite (bind_normal _ _ _ _ _ E1) in H.
    unfold write, bind, throw in H. cbn [journal world] in H.
    inversion H; subst c s'.
    exists t0, w0, (Throw e), s2, t1. split; [exact EX|]. now split.
  - rewrite (bind_fuel _ _ _ EX) in H. discriminate.
Qed.

Lemma find_not_none {A} (f : A -> bool) (l : list A) (x : A) :
  In x l -> f x = true -> find f l <> None.
Proof.
  induction l as [|y l IH]; intros Hin Hx; [destruct Hin|]. simpl.
  destruct (f y) eqn:E; [discriminate|].
  destruct Hin as [->|Hin]; [congruence|now apply IH].
Qed.

(** A returned run, its journal and the document stored. *)
Lemma workflow_stored {World} {RT : Runtime World} (fuel : nat)
      (agent user : string) (nodeList : list Node.t) (edgeList : list Edge.t)
      (s : State World) c s' :
  executeAgentWorkflow fuel agent user nodeList edgeList s = Returned c s' ->
  exists t0 w0 cx s2 t1 ws final,
    execute {| nodes := nodeList; edges := edgeList |} fuel
      {| world := w0;
         journal := journal s ++ [Insert (freshExecution agent user t0)] |}
    = Returned cx s2 /\
    journal s2
    = (journal s ++ [Insert (freshExecution agent user t0)]) ++ ws /\
    forallb isPush ws = true /\
    Db.stored (journal s')
    = Some (savedOver (withPushes (freshExecution agent user t0) ws) final) /\
    match cx with
    | Normal _ =>
        final = finish (freshExecution agent user t0) completed t1
                  (Some (t1 - t0)%Z) None /\
        c = Normal final
    | Throw e =>
        final = finish (freshExecution agent user t0) failed t1 None
                  (Some (message e)) /\
        c = Throw e
    end.
Proof.
  intros H.
  destruct (workflow_execute _ _ _ _ _ _ _ _ H) as (t0 & w0 & cx & s2 & t1 & EX & C).
  destruct (pushing_execute _ fuel _ _ _ EX) as (ws & J & P & _).
  cbn [journal] in J.
  destruct cx as [r|e]; destruct C as [-> JS].
  - exists t0, w0, (Normal r), s2, t1, ws,
      (finish (freshExecution agent user t0) completed t1 (Some (t1 - t0)%Z) None).
    repeat split; auto.
    rewrite JS, J, <- !app_assoc. cbn [app]. now apply stored_run.
  - exists t0, w0, (Throw e), s2, t1, ws,
      (finish (freshExecution agent user t0) failed t1 None (Some (message e))).
    repeat split; auto.
    rewrite JS, J, <- !app_assoc. cbn [app]. now apply stored_run.
Qed.

(** X10.  The results stored by a run come in the order of the depth-first
    walk from the entry node, a node appearing once for each path that
    reaches it: all of that order when the run completes, a first part of
    it when the run fails. *)
Theorem stored_results_follow_the_walk :
  forall World (RT : Runtime World) (fuel : nat) (agent user : string)
         (nodeList : list Node.t) (edgeList : list Edge.t)
         (s : State World) c s',
    executeAgentWorkflow fuel agent user nodeList edgeList s = Returned c s' ->
    exists stored,
      Db.stored (journal s') = Some stored /\
      match c with
      | Normal _ =>
          Sample.nodeIds (results stored)
          = map JStr (entryOrder {| nodes := nodeList; edges := edgeList |} fuel)
      | Throw _ =>
          exists rest,
            map JStr (entryOrder {| nodes := nodeList; edges := edgeList |} fuel)
            = Sample.nodeIds (results stored) ++ rest
      end.
Proof.
  intros World RT fuel agent user nodeList edgeList s c s' H.
  destruct (workflow_stored _ _ _ _ _ _ _ _ H)
    as (t0 & w0 & cx & s2 & t1 & ws & final & EX & J & P & ST & C).
  destruct (emitting_execute _ fuel _ _ _ EX) as (ws' & J' & R).
  cbn [journal] in J'. rewrite J in J'. apply app_inv_head in J'. subst ws'.
  eexists. split; [exact ST|]. cbn [savedOver withPushes results freshExecution app].
  unfold resultIds in R. unfold Sample.nodeIds.
  destruct cx as [r|e]; destruct C as [_ ->]; exact R.
Qed.

(** The statement applied to the run of the branching sample. *)
Lemma stored_results_follow_the_walk_witness :
  exists c s' stored,
    executeAgentWorkflow (RT := Reference.runtime) 3 "agent" "user"
      (nodes Sample.branching) (edges Sample.branching) Sample.start
    = Returned c s' /\
    Db.stored (journal s') = Some stored /\
    match c with
    | Normal _ =>
        Sample.nodeIds (results stored)
        = map JStr (entryOrder Sample.branching 3)
    | Throw _ =>
        exists rest,
          map JStr (entryOrder Sample.branching 3)
          = Sample.nodeIds (results stored) ++ rest
    end.
Proof.
  eexists _, _.
  assert (executeAgentWorkflow (RT := Reference.runtime) 3 "agent" "user"
            (nodes Sample.branching) (edges Sample.branching) Sample.start
          = Returned _ _) as E by (vm_compute; reflexivity).
  destruct (stored_results_follow_the_walk Reference.World Reference.runtime
              3 "agent" "user" (nodes Sample.branching) (edges Sample.branching)
              Sample.start _ _ E) as (stored & S1 & S2).
  exists stored. split; [exact E|]. split; [exact S1|exact S2].
Defined.

(** X11.  The log stored by a run that returns opens with the entry
    "Starting agent execution" and closes with an info entry "Agent
    execution completed successfully" when the run completes, or with an
    error entry "Agent execution failed" that carries the message of the
    error when the run fails. *)
Theorem stored_log_opens_and_closes :
  forall World (RT : Runtime World) (fuel : nat) (agent user : string)
         (nodeList : list Node.t) (edgeList : list Edge.t)
         (s : State World) c s',
    executeAgentWorkflow fuel agent user nodeList edgeList s = Returned c s' ->
    exists stored t0 tN between,
      Db.stored (journal s') = Some stored /\
      logs stored
      = logEntry t0 info (Text "Starting agent execution") None
        :: between ++ [closingLog tN c].
Proof.
  intros World RT fuel agent user nodeList edgeList s c s' H.
  destruct (workflow_stored _ _ _ _ _ _ _ _ H)
    as (t0 & w0 & cx & s2 & t1 & ws & final & EX & J & P & ST & C).
  destruct (execute_shape _ fuel _ _ _ EX) as (l0 & lN & mid & J' & _).
  cbn [journal] in J'. rewrite J in J'. apply app_inv_head in J'. subst ws.
  eexists _, l0, lN, (Db.pushedLogs mid). split; [exact ST|].
  cbn [savedOver withPushes logs freshExecution app Db.pushedLogs].
  rewrite pushedLogs_app. cbn [Db.pushedLogs]. repeat f_equal.
  destruct cx as [r|e]; destruct C as [_ ->]; reflexivity.
Qed.

(** The statement applied to a run without trigger. *)
Lemma stored_log_opens_and_closes_witness :
  exists c s' stored t0 tN between,
    executeAgentWorkflow (RT := Reference.runtime) 1 "agent" "user"
      [Sample.nYes] [] Sample.start = Returned c s' /\
    Db.stored (journal s') = Some stored /\
    logs stored
    = logEntry t0 info (Text "Starting agent execution") None
      :: between ++ [closingLog tN c].
Proof.
  eexists _, _.
  assert (executeAgentWorkflow (RT := Reference.runtime) 1 "agent" "user"
            [Sample.nYes] [] Sample.start = Returned _ _) as E
    by (vm_compute; reflexivity).
  destruct (stored_log_opens_and_closes Reference.World Reference.runtime
              1 "agent" "user" [Sample.nYes] [] Sample.start _ _ E)
    as (stored & t0 & tN & between & S1 & S2).
  exists stored, t0, tN, between. split; [exact E|]. split; [exact S1|exact S2].
Defined.

(** X12.  The document a completed run returns to its caller has status
    [completed], an end time and a duration equal to the end time minus
    the start time, but no log and no result: those were pushed to the
    stored document only, which holds one result at least, as many as the
    walk made visits, and the same status, end time and duration. *)
Theorem completed_run_returns_a_bare_document :
  forall World (RT : Runtime World) (fuel : nat) (agent user : string)
         (nodeList : list Node.t) (edgeList : list Edge.t)
         (s : State World) doc s',
    executeAgentWorkflow fuel agent user nodeList edgeList s
    = Returned (Normal doc) s' ->
    status doc = completed /\ results doc = [] /\ logs doc = [] /\
    (exists t1, endTime doc = Some t1 /\
                duration doc = Some (t1 - startTime doc)%Z) /\
    exists stored,
      Db.stored (journal s') = Some stored /\
      status stored = completed /\ errorMessage stored = None /\
      endTime stored = endTime doc /\ duration stored = duration doc /\
      results stored <> [] /\
      length (results stored)
      = entryVisits {| nodes := nodeList; edges := edgeList |} fuel.
Proof.
  intros World RT fuel agent user nodeList edgeList s doc s' H.
  destruct (workflow_stored _ _ _ _ _ _ _ _ H)
    as (t0 & w0 & cx & s2 & t1 & ws & final & EX & J & P & ST & C).
  destruct cx as [r|e]; destruct C as [-> C]; [|discriminate].
  inversion C; subst doc. clear C.
  destruct (pushing_execute _ fuel _ _ _ EX) as (ws' & J' & _ & _ & N).
  cbn [journal] in J'. rewrite J in J'. apply app_inv_head in J'. subst ws'.
  specialize (N (ex_intro _ r eq_refl)).
  repeat split; try reflexivity.
  - exists t1. now split.
  - eexists. split; [exact ST|].
    cbn [savedOver withPushes finish freshExecution status errorMessage
           endTime duration results app].
    repeat split; try reflexivity; [|exact N].
    intros Hnil. rewrite Hnil in N. cbn [length] in N.
    unfold entryVisits in N. cbn [nodes] in N.
    unfold execute, tryCatch in EX.
    destruct (find (fun n => isTriggerType (Node.type n)) nodeList)
      as [t|] eqn:F.
    2:{ revert EX.
        match goal with
        | |- context [bind (log info ?m None) _ ?st] =>
            destruct (log_run info m None st) as (l & w & L)
        end.
        rewrite (bind_normal _ _ _ _ _ L). cbn [nodes]. rewrite F.
        unfold throw at 1. intros EX.
        apply reportFailure_throws in EX. discriminate. }
    destruct fuel as [|fuel].
    { revert EX.
      match goal with
      | |- context [bind (log info ?m None) _ ?st] =>
          destruct (log_run info m None st) as (l & w & L)
      end.
      rewrite (bind_normal _ _ _ _ _ L). cbn [nodes]. rewrite F.
      unfold runFrom.
      match goal with
      | |- context [bind (labelOrType t) ?k ?st] =>
          destruct (labelOrType t st) as [[v|e] sx|] eqn:LT
      end.
      - rewrite (bind_normal _ _ _ _ _ LT).
        match goal with
        | |- context [bind (template ?a ?b) ?k ?st] =>
            destruct (template (World := World) a b st) as [[v2|e] sy|] eqn:TT
        end.
        + rewrite (bind_normal _ _ _ _ _ TT).
          match goal with
          | |- context [bind (log info ?m None) ?k ?st] =>
              destruct (log_run info m None st) as (l2 & w2 & L2)
          end.
          rewrite (bind_normal _ _ _ _ _ L2).
          unfold bind at 1. cbn [executeNode]. discriminate.
        + rewrite (bind_throw _ _ _ _ _ TT). intros EX.
          apply reportFailure_throws in EX. discriminate.
        + unfold template, pure in TT. discriminate.
      - rewrite (bind_throw _ _ _ _ _ LT). intros EX.
        apply reportFailure_throws in EX. discriminate.
      - rewrite (bind_fuel _ _ _ LT). discriminate. }
    cbn [pathVisits] in N.
    apply find_some in F as [Hin Ht].
    assert (findNode {| nodes := nodeList; edges := edgeList |} (Node.id t) <> None)
      as NN.
    { unfold findNode. cbn [nodes].
      apply (find_not_none _ nodeList t Hin). apply String.eqb_refl. }
    destruct (findNode {| nodes := nodeList; edges := edgeList |} (Node.id t));
      [discriminate|congruence].
Qed.

(** The statement applied to the run of the branching sample. *)
Lemma completed_run_returns_a_bare_document_witness :
  exists doc s',
    executeAgentWorkflow (RT := Reference.runtime) 3 "agent" "user"
      (nodes Sample.branching) (edges Sample.branching) Sample.start
    = Returned (Normal doc) s' /\
    results doc = [] /\
    exists stored,
      Db.stored (journal s') = Some stored /\ length (results stored) = 4.
Proof.
  eexists _, _.
  assert (executeAgentWorkflow (RT := Reference.runtime) 3 "agent" "user"
            (nodes Sample.branching) (edges Sample.branching) Sample.start
          = Returned (Normal _) _) as E by (vm_compute; reflexivity).
  destruct (completed_run_returns_a_bare_document
              Reference.World Reference.runtime
              3 "agent" "user" (nodes Sample.branching) (edges Sample.branching)
              Sample.start _ _ E)
    as (_ & R & _ & _ & stored & S1 & _ & _ & _ & _ & _ & S2).
  split; [exact E|]. split; [exact R|]. exists stored. split; [exact S1|].
  rewrite S2. reflexivity.
Defined.

(** X13.  When the run fails, the stored document has status [failed], the
    message of the error thrown to the caller, an end time and no
    duration. *)
Theorem failed_run_has_no_duration :
  forall World (RT : Runtime World) (fuel : nat) (agent user : string)
         (nodeList : list Node.t) (edgeList : list Edge.t)
         (s : State World) e s',
    executeAgentWorkflow fuel agent user nodeList edgeList s
    = Returned (Throw e) s' ->
    exists stored t1,
      Db.stored (journal s') = Some stored /\
      status stored = failed /\
      errorMessage stored = Some (message e) /\
      endTime stored = Some t1 /\
      duration stored = None.
Proof.
  intros World RT fuel agent user nodeList edgeList s e s' H.
  destruct (workflow_stored _ _ _ _ _ _ _ _ H)
    as (t0 & w0 & cx & s2 & t1 & ws & final & EX & J & P & ST & C).
  destruct cx as [r|e0]; destruct C as [-> C]; [discriminate|].
  inversion C; subst e0.
  eexists _, t1. split; [exact ST|]. now repeat split.
Qed.

(** The statement applied to a run without trigger. *)
Lemma failed_run_has_no_duration_witness :
  exists e s' stored t1,
    executeAgentWorkflow (RT := Reference.runtime) 1 "agent" "user"
      [Sample.nYes] [] Sample.start = Returned (Throw e) s' /\
    Db.stored (journal s') = Some stored /\
    status stored = failed /\
    errorMessage stored = Some (message e) /\
    endTime stored = Some t1 /\
    duration stored = None.
Proof.
  eexists _, _.
  assert (executeAgentWorkflow (RT := Reference.runtime) 1 "agent" "user"
            [Sample.nYes] [] Sample.start = Returned (Throw _) _) as E
    by (vm_compute; reflexivity).
  destruct (failed_run_has_no_duration Reference.World Reference.runtime
              1 "agent" "user" [Sample.nYes] [] Sample.start _ _ E)
    as (stored & t1 & S).
  exists stored, t1. split; [exact E|exact S].
Defined.

(** X14.  When the entry node has no data ([undefined] or [null]), the run
    fails with a TypeError before any node is visited: no result is
    pushed, for any budget, and the failure is stored. *)
Theorem entry_without_data_fails_the_run :
  forall World (RT : Runtime World) (fuel : nat) (agent user : string)
         (nodeList : list Node.t) (edgeList : list Edge.t)
         (trigger : Node.t) (s : State World),
    find (fun n => isTriggerType (Node.type n)) nodeList = Some trigger ->
    Node.data trigger = JUndefined \/ Node.data trigger = JNull ->
    exists text s' stored,
      executeAgentWorkflow fuel agent user nodeList edgeList s
      = Returned (Throw (TypeErrorOf text)) s' /\
      Db.pushedResults (journal s') = Db.pushedResults (journal s) /\
      Db.stored (journal s') = Some stored /\
      status stored = failed /\
      errorMessage stored = Some text /\
      results stored = [].
Proof.
  intros World RT fuel agent user nodeList edgeList trigger s F D.
  assert (exists text, readLabel trigger = Throw (TypeErrorOf text)) as (text & L).
  { unfold readLabel. destruct D as [-> | ->]; now eexists. }
  unfold executeAgentWorkflow.
  destruct (newDate_run s) as (t0 & w0 & E0).
  rewrite (bind_normal _ _ _ _ _ E0).
  fold (freshExecution agent user t0).
  unfold write at 1. unfold bind at 1. cbn [journal world].
  set (s1 := {| world := w0;
                journal := journal s ++ [Insert (freshExecution agent user t0)] |}).
  assert (exists l1 l2 w2,
             execute {| nodes := nodeList; edges := edgeList |} fuel s1
             = Returned (Throw (TypeErrorOf text))
                 {| world := w2;
                    journal := journal s1 ++ [PushLog l1; PushLog l2] |})
    as (l1 & l2 & w2 & EX).
  { unfold execute, tryCatch.
    destruct (log_run info (Text "Starting agent execution") None s1)
      as (t1 & w1 & E1).
    rewrite (bind_normal _ _ _ _ _ E1). cbn [nodes]. rewrite F.
    unfold runFrom.
    match goal with
    | |- context [bind (labelOrType trigger) ?k ?st] =>
        assert (labelOrType (World := World) trigger st
                = Returned (Throw (TypeErrorOf text)) st) as LT
          by (unfold labelOrType, dataLabel, pure, bind; now rewrite L)
    end.
    rewrite (bind_throw _ _ _ _ _ LT).
    unfold reportFailure.
    match goal with
    | |- context [bind (log error ?m ?d) _ ?st] =>
        destruct (log_run error m d st) as (t2 & w2 & E2)
    end.
    rewrite (bind_normal _ _ _ _ _ E2). unfold throw. cbn [journal].
    eexists _, _, w2. now rewrite <- app_assoc. }
  unfold tryCatch. rewrite (bind_throw _ _ _ _ _ EX).
  match goal with
  | |- context [bind newDate _ ?st] => destruct (newDate_run st) as (t3 & w3 & E3)
  end.
  rewrite (bind_normal _ _ _ _ _ E3).
  unfold write, bind, throw. cbn [journal world message].
  eexists text, _, _. split; [reflexivity|]. cbn [journal]. subst s1.
  cbn [journal]. rewrite <- !app_assoc. cbn [app].
  split.
  { rewrite pushedResults_app. cbn. now rewrite app_nil_r. }
  pose proof (stored_run (journal s) [PushLog l1; PushLog l2]
                (freshExecution agent user t0)
                (finish (freshExecution agent user t0) failed t3 None (Some text))
                eq_refl) as ST.
  cbn [app] in ST. rewrite ST.
  split; [reflexivity|]. now repeat split.
Qed.

(** The statement applied to a trigger that has no data. *)
Lemma entry_without_data_fails_the_run_witness :
  exists text s' stored,
    executeAgentWorkflow (RT := Reference.runtime) 4 "agent" "user"
      [Node.make "t" "trigger" JUndefined] [] Sample.start
    = Returned (Throw (TypeErrorOf text)) s' /\
    Db.pushedResults (journal s') = Db.pushedResults (journal Sample.start) /\
    Db.stored (journal s') = Some stored /\
    status stored = failed /\
    errorMessage stored = Some text /\
    results stored = [].
Proof.
  apply (entry_without_data_fails_the_run Reference.World Reference.runtime
           4 "agent" "user" [Node.make "t" "trigger" JUndefined] []
           (Node.make "t" "trigger" JUndefined) Sample.start).
  - reflexivity.
  - left. reflexivity.
Defined.

(* ================================================================= *)
(** * Properties of the methods no call reaches *)

Section UnusedMethodFacts.

Context {World : Type} {RT : Runtime World}.

Lemma coinFlip_run (s : State World) :
  exists b w,
    coinFlip s = Returned (Normal b) {| world := w; journal := journal s |}.
Proof.
  unfold coinFlip, call. destruct (mathRandom (world s)) as [r w].
  now eexists _, w.
Qed.

Lemma conditionMet_run (d context : JsValue) (s : State World) :
  exists b w ws,
    conditionMet d context s
    = Returned (Normal b) {| world := w; journal := journal s ++ ws |} /\
    forallb isLog ws = true.
Proof.
  assert (forall e,
             exists b w ws,
               bind (log error (TextWith "Condition evaluation failed: "
                                  (JStr (message e))) None)
                    (fun _ => ret false) s
               = Returned (Normal b) {| world := w; journal := journal s ++ ws |} /\
               forallb isLog ws = true) as Hcatch.
  { intros e.
    destruct (log_run error (TextWith "Condition evaluation failed: "
                               (JStr (message e))) None s) as (t & w & E).
    rewrite (bind_normal _ _ _ _ _ E). unfold ret. now eexists false, w, [_]. }
  assert (exists b w ws,
             coinFlip s
             = Returned (Normal b) {| world := w; journal := journal s ++ ws |} /\
             forallb isLog ws = true) as Hflip.
  { destruct (coinFlip_run s) as (b & w & E). exists b, w, [].
    now rewrite app_nil_r. }
  unfold conditionMet, tryCatch.
  destruct (match JsObject.get d "conditionType" with
            | JUndefined => JStr "simple"
            | v => v
            end) as [| |b|n|ct|ps];
    try (destruct Hflip as (b0 & w & ws & -> & F); now exists b0, w, ws).
  destruct (String.eqb ct "simple" && JsObject.truthy (JsObject.get d "condition"));
    [|destruct Hflip as (b0 & w & ws & -> & F); now exists b0, w, ws].
  destruct (JsObject.get d "condition") as [| |b|n|c|ps];
    try (unfold throw at 1; apply Hcatch).
  unfold pure. destruct (evaluateSimpleCondition c context) as [b|e].
  - exists b, (world s), []. rewrite app_nil_r. now destruct s.
  - apply Hcatch.
Qed.

End UnusedMethodFacts.

(** X15.  The evaluation step of [executeCondition] never throws and
    writes log entries only: whatever the node data and the context, it
    ends with a boolean. *)
Theorem conditionMet_never_throws :
  forall World (RT : Runtime World) (d context : JsValue) (s : State World),
    exists b s',
      conditionMet d context s = Returned (Normal b) s' /\
      Db.pushedResults (journal s') = Db.pushedResults (journal s) /\
      Db.statusHistory (journal s') = Db.statusHistory (journal s).
Proof.
  intros World RT d context s.
  destruct (conditionMet_run d context s) as (b & w & ws & E & F).
  eexists b, _. split; [exact E|]. cbn [journal].
  rewrite pushedResults_app, statusHistory_app,
    (pushedResults_logs _ F), (statusHistory_pushes _ (logs_are_pushes _ F)).
  now rewrite !app_nil_r.
Qed.

(** X16.  For a simple condition given as a non-empty string, the
    evaluation step answers what [evaluateSimpleCondition] answers and
    writes nothing; when [evaluateSimpleCondition] throws it answers
    [false] and logs one error entry with the message of the error. *)
Theorem simple_condition_failure_counts_as_false :
  forall World (RT : Runtime World) (d context : JsValue) (s : State World)
         (c0 : ascii) (c : string),
    JsObject.get d "condition" = JStr (String c0 c) ->
    JsObject.get d "conditionType" = JUndefined \/
    JsObject.get d "conditionType" = JStr "simple" ->
    match evaluateSimpleCondition (String c0 c) context with
    | Normal b => conditionMet d context s = Returned (Normal b) s
    | Throw e =>
        exists t w,
          conditionMet d context s
          = Returned (Normal false)
              {| world := w;
                 journal := journal s ++
                   [PushLog (logEntry t error
                               (TextWith "Condition evaluation failed: "
                                  (JStr (message e))) None)] |}
    end.
Proof.
  intros World RT d context s c0 c Hc Ht.
  unfold conditionMet, tryCatch. rewrite Hc.
  assert (match JsObject.get d "conditionType" with
          | JUndefined => JStr "simple"
          | v => v
          end = JStr "simple") as -> by (destruct Ht as [-> | ->]; reflexivity).
  cbn [String.eqb Ascii.eqb Bool.eqb andb JsObject.truthy]. unfold pure.
  destruct (evaluateSimpleCondition (String c0 c) context) as [b|e];
    [reflexivity|].
  destruct (log_run error (TextWith "Condition evaluation failed: "
                             (JStr (message e))) None s) as (t & w & E).
  rewrite (bind_normal _ _ _ _ _ E). now exists t, w.
Qed.

(** The statement applied to a condition whose left operand is an object
    with a [toString] entry. *)
Lemma simple_condition_failure_counts_as_false_witness :
  exists t w,
    conditionMet (RT := Reference.runtime)
      (JObj [("condition", JStr "user > 1")])
      (JObj [("user", JObj [("toString", JBool true)])]) Sample.start
    = Returned (Normal false)
        {| world := w;
           journal := journal Sample.start ++
             [PushLog (logEntry t error
                         (TextWith "Condition evaluation failed: "
                            (JStr "Cannot convert object to primitive value"))
                         None)] |}.
Proof.
  apply (simple_condition_failure_counts_as_false
           Reference.World Reference.runtime
           (JObj [("condition", JStr "user > 1")])
           (JObj [("user", JObj [("toString", JBool true)])]) Sample.start
           "u"%char "ser > 1").
  - reflexivity.
  - left. reflexivity.
Defined.

Lemma pickEdge_in (es : list Edge.t) (met : bool) (e : Edge.t) :
  pickEdge es met = Some e -> In e es.
Proof.
  unfold pickEdge.
  destruct (nth_error es (if met then 0 else 1)) as [x|] eqn:N.
  - intros [= <-]. exact (nth_error_In _ _ N).
  - intros H. exact (nth_error_In _ _ H).
Qed.

Lemma pickEdge_none (es : list Edge.t) (met : bool) :
  pickEdge es met = None -> es = [].
Proof.
  unfold pickEdge.
  destruct (nth_error es (if met then 0 else 1)); [discriminate|].
  now destruct es.
Qed.

(** X17.  [executeCondition] follows one outgoing edge at most: when it
    completes, the results it pushed are those of the walk from the
    target of one outgoing edge of the node, or none when the node has no
    outgoing edge (the context is then returned as it came). *)
Theorem executeCondition_follows_one_edge :
  forall World (RT : Runtime World) (this : AgentExecutor) (fuel : nat)
         (node : Node.t) (context : JsValue) (s : State World) r s',
    executeCondition this fuel node context s = Returned (Normal r) s' ->
    exists ws,
      journal s' = journal s ++ ws /\
      ((outgoing this (Node.id node) = [] /\ resultIds ws = [] /\ r = context)
       \/
       (exists e,
           In e (outgoing this (Node.id node)) /\
           resultIds ws = map JStr (preorder this fuel (Edge.target e)))).
Proof.
  intros World RT this fuel node context s r s' H.
  unfold executeCondition in H.
  assert (exists d,
             (bind (template "Evaluating condition: "
                      (JsObject.orElse (JsObject.get d "condition")
                                       (JStr "No condition specified")))
                (fun msg =>
                   bind (log info msg None)
                     (fun _ =>
                        bind (conditionMet d context)
                          (fun met =>
                             bind (log info
                                     (TextWith "Condition result: "
                                        (JStr (if met then "TRUE" else "FALSE")))
                                     None)
                               (fun _ =>
                                  match pickEdge (outgoing this (Node.id node)) met with
                                  | Some nextEdge =>
                                      executeNode this fuel (Edge.target nextEdge)
                                        (JsObject.spreadWith context
                                           "conditionResult" (JBool met))
                                  | None => ret context
                                  end))))) s
             = Returned (Normal r) s') as (d & K).
  { destruct (Node.data node) eqn:D; try discriminate; eexists; exact H. }
  clear H.
  apply bind_returned in K as [(e & _ & E)|(msg & s1 & E1 & K)]; [discriminate|].
  assert (s1 = s) as ->.
  { unfold template, pure in E1. now inversion E1. }
  apply bind_returned in K as [(e & _ & E)|(u & s2 & E2 & K)]; [discriminate|].
  destruct (log_run info msg None s) as (t2 & w2 & L2).
  rewrite L2 in E2. inversion E2; subst s2. clear E2.
  apply bind_returned in K as [(e & _ & E)|(met & s3 & E3 & K)]; [discriminate|].
  match type of E3 with
  | conditionMet d context ?st = _ =>
      destruct (conditionMet_run d context st) as (b & w3 & ws3 & C3 & F3)
  end.
  rewrite C3 in E3. inversion E3; subst met s3. clear E3.
  apply bind_returned in K as [(e & _ & E)|(u4 & s4 & E4 & K)]; [discriminate|].
  match type of E4 with
  | log info ?m None ?st = _ => destruct (log_run info m None st) as (t4 & w4 & L4)
  end.
  rewrite L4 in E4. inversion E4; subst s4. clear E4.
  cbn [journal] in K.
  destruct (pickEdge (outgoing this (Node.id node)) b) as [e|] eqn:P.
  - destruct (emitting_executeNode this fuel _ _ _ _ _ K) as (ws & J & R).
    cbn [journal] in J. eexists. split.
    { rewrite J, <- !app_assoc. reflexivity. }
    right. exists e. split; [exact (pickEdge_in _ _ _ P)|].
    rewrite !resultIds_app, (resultIds_logs _ F3). exact R.
  - inversion K; subst r s'. cbn [journal]. eexists. split.
    { rewrite <- !app_assoc. reflexivity. }
    left. split; [exact (pickEdge_none _ _ P)|].
    rewrite !resultIds_app, (resultIds_logs _ F3). now split.
Qed.

(** The statement applied to the condition node of the branching
    sample. *)
Lemma executeCondition_follows_one_edge_witness :
  exists r s' ws,
    executeCondition (RT := Reference.runtime) Sample.branching 2
      Sample.nCondition (JObj []) Sample.start = Returned (Normal r) s' /\
    journal s' = journal Sample.start ++ ws /\
    ((outgoing Sample.branching (Node.id Sample.nCondition) = [] /\
      resultIds ws = [] /\ r = JObj [])
     \/
     (exists e,
         In e (outgoing Sample.branching (Node.id Sample.nCondition)) /\
         resultIds ws = map JStr (preorder Sample.branching 2 (Edge.target e)))).
Proof.
  eexists _, _.
  assert (executeCondition (RT := Reference.runtime) Sample.branching 2
            Sample.nCondition (JObj []) Sample.start = Returned (Normal _) _) as E
    by (vm_compute; reflexivity).
  destruct (executeCondition_follows_one_edge Reference.World Reference.runtime
              Sample.branching 2 Sample.nCondition (JObj []) Sample.start _ _ E)
    as (ws & J & R).
  exists ws. split; [exact E|]. split; [exact J|exact R].
Defined.

(** X18.  Without a URL in the node data (absent, empty, or otherwise
    falsy), [executeApiCall] issues no request, whatever the HTTP client:
    it reads the clock once for the log entry "Making API call to: No URL
    specified" and once for the simulated answer, leaves the world as
    these two readings leave it, and returns the context with a simulated
    [apiResponse] of status 200. *)
Theorem executeApiCall_without_url_is_simulated :
  forall World (RT : Runtime World) (node : Node.t)
         (props : list (string * JsValue)) (context : JsValue)
         (s : State World),
    Node.data node = JObj props ->
    JsObject.truthy (JsObject.get (JObj props) "url") = false ->
    executeApiCall node context s
    = Returned
        (Normal (JsObject.spreadWith context "apiResponse"
                   (simulatedResponse (fst (now (snd (now (world s))))))))
        {| world := snd (now (snd (now (world s))));
           journal := journal s ++
             [PushLog (logEntry (fst (now (world s))) info
                         (TextWith "Making API call to: " (JStr "No URL specified"))
                         None)] |} /\
    JsObject.get (simulatedResponse (fst (now (snd (now (world s)))))) "status"
    = JNum (JsNumber.ofZ 200).
Proof.
  intros World RT node props context s D U.
  split; [|reflexivity].
  unfold executeApiCall. rewrite D. cbv beta iota.
  unfold JsObject.orElse at 1. rewrite U.
  unfold template, pure, log, newDate, call, write, tryCatch, bind, ret.
  cbn [JsCompare.toPrimitive JsCompare.mapC].
  destruct (now (world s)) as [t1 w1]. cbn [world journal fst snd].
  destruct (now w1) as [t2 w2]. reflexivity.
Qed.

(** The statement applied to a node whose data has no [url]. *)
Lemma executeApiCall_without_url_is_simulated_witness :
  executeApiCall (RT := Reference.runtime) Sample.nYes (JObj []) Sample.start
  = Returned
      (Normal (JsObject.spreadWith (JObj []) "apiResponse"
                 (simulatedResponse (RT := Reference.runtime) 1)))
      {| world := 2;
         journal :=
           [PushLog (logEntry 0 info
                       (TextWith "Making API call to: " (JStr "No URL specified"))
                       None)] |} /\
  JsObject.get (simulatedResponse (RT := Reference.runtime) 1) "status"
  = JNum (JsNumber.ofZ 200).
Proof.
  exact (executeApiCall_without_url_is_simulated
           Reference.World Reference.runtime Sample.nYes
           [("label", JStr "Yes")] (JObj []) Sample.start eq_refl eq_refl).
Defined.

(** X19.  When the HTTP client rejects the request, [executeApiCall] does
    not return the context as it came (the way [apiCallNode] does): it
    logs the failure in the execution log and returns the context with
    the simulated [apiResponse] of status 200. *)
Theorem executeApiCall_failure_is_simulated :
  forall World (RT : Runtime World) (node : Node.t)
         (props : list (string * JsValue)) (context : JsValue)
         (s : State World) (shown : JsValue) (e : JsError),
    Node.data node = JObj props ->
    JsObject.truthy (JsObject.get (JObj props) "url") = true ->
    JsCompare.toPrimitive (JsObject.get (JObj props) "url") = Normal shown ->
    (forall w, fst (axios (executeApiCallRequest (JObj props)) w) = Throw e) ->
    exists t1 t2 t3 w,
      executeApiCall node context s
      = Returned
          (Normal (JsObject.spreadWith context "apiResponse" (simulatedResponse t3)))
          {| world := w;
             journal := journal s ++
               [PushLog (logEntry t1 info
                           (TextWith "Making API call to: "
                              (JsObject.get (JObj props) "url")) None);
                PushLog (logEntry t2 error
                           (TextWith "API call failed: " (JStr (message e)))
                           None)] |}.
Proof.
  intros World RT node props context s shown e D U P A.
  unfold executeApiCall. rewrite D. cbv beta iota.
  unfold JsObject.orElse at 1. rewrite U.
  assert (template (World := World) "Making API call to: "
            (JsObject.get (JObj props) "url") s
          = Returned (Normal (TextWith "Making API call to: "
                                (JsObject.get (JObj props) "url"))) s) as ET.
  { unfold template, pure. now rewrite P. }
  rewrite (bind_normal _ _ _ _ _ ET).
  destruct (log_run info (TextWith "Making API call to: "
                            (JsObject.get (JObj props) "url")) None s)
    as (t1 & w1 & E1).
  rewrite (bind_normal _ _ _ _ _ E1).
  set (s1 := {| world := w1;
                journal := journal s ++
                  [PushLog {| timestamp := t1; level := info;
                              logMessage :=
                                TextWith "Making API call to: "
                                  (JsObject.get (JObj props) "url");
                              logData := None |}] |}).
  fold (executeApiCallRequest (JObj props)).
  assert (exists w2,
             call (axios (executeApiCallRequest (JObj props))) s1
             = Returned (Throw e) {| world := w2; journal := journal s1 |})
    as (w2 & EC).
  { unfold call. specialize (A (world s1)).
    destruct (axios (executeApiCallRequest (JObj props)) (world s1)) as [c w2].
    cbn [fst] in A. subst c. now exists w2. }
  match goal with
  | |- context [bind (tryCatch ?m ?h) ?k s1] =>
      assert (exists t2 w3,
                 tryCatch m h s1
                 = Returned (Normal None)
                     {| world := w3;
                        journal := journal s1 ++
                          [PushLog (logEntry t2 error
                                      (TextWith "API call failed: "
                                         (JStr (message e))) None)] |})
        as (t2 & w3 & EA)
  end.
  { unfold tryCatch. rewrite (bind_throw _ _ _ _ _ EC).
    match goal with
    | |- context [bind (log error ?m None) _ ?st] =>
        destruct (log_run error m None st) as (t2 & w3 & E2)
    end.
    rewrite (bind_normal _ _ _ _ _ E2). unfold ret. now exists t2, w3. }
  rewrite (bind_normal _ _ _ _ _ EA).
  match goal with
  | |- context [bind newDate _ ?st] => destruct (newDate_run st) as (t3 & w4 & E3)
  end.
  rewrite (bind_normal _ _ _ _ _ E3). unfold ret. cbn [journal].
  exists t1, t2, t3, w4. subst s1. cbn [journal]. now rewrite <- app_assoc.
Qed.

(** The statement applied to a node whose URL is the number 5, which the
    reference client rejects. *)
Lemma executeApiCall_failure_is_simulated_witness :
  exists t1 t2 t3 w,
    executeApiCall (RT := Reference.runtime)
      (Node.make "n" "apiCall" (JObj [("url", JNum (JsNumber.ofZ 5))]))
      (JObj []) Sample.start
    = Returned
        (Normal (JsObject.spreadWith (JObj []) "apiResponse"
                   (simulatedResponse (RT := Reference.runtime) t3)))
        {| world := w;
           journal := journal Sample.start ++
             [PushLog (logEntry t1 info
                         (TextWith "Making API call to: "
                            (JsObject.get (JObj [("url", JNum (JsNumber.ofZ 5))])
                               "url")) None);
              PushLog (logEntry t2 error
                         (TextWith "API call failed: "
                            (JStr (message (TypeErrorOf "Invalid URL"))))
                         None)] |}.
Proof.
  apply (executeApiCall_failure_is_simulated
           Reference.World Reference.runtime
           (Node.make "n" "apiCall" (JObj [("url", JNum (JsNumber.ofZ 5))]))
           [("url", JNum (JsNumber.ofZ 5))] (JObj []) Sample.start
           (JNum (JsNumber.ofZ 5)) (TypeErrorOf "Invalid URL"));
    try reflexivity.
Defined.

(** X20.  [executeTrigger] stamps the context: the object it returns reads
    the node type under [triggerType], the node data under [triggerData]
    and the date under [triggeredAt], whatever the context held under
    those keys, and under every other key what the context read there. *)
Theorem executeTrigger_stamps_the_context :
  forall World (RT : Runtime World) (node : Node.t)
         (props : list (string * JsValue)) (s : State World)
         (label shown : JsValue),
    readLabel node = Normal label ->
    JsCompare.toPrimitive (JsObject.orElse label (JStr "Unnamed trigger"))
    = Normal shown ->
    exists r t s',
      executeTrigger node (JObj props) s = Returned (Normal r) s' /\
      JsObject.get r "triggeredAt" = JStr (toISOString t) /\
      JsObject.get r "triggerType" = JStr (Node.type node) /\
      JsObject.get r "triggerData" = Node.data node /\
      forall k,
        k <> "triggeredAt" -> k <> "triggerType" -> k <> "triggerData" ->
        JsObject.get r k = JsObject.get (JObj props) k.
Proof.
  intros World RT node props s label shown L P.
  unfold executeTrigger.
  assert (dataLabel (World := World) node s = Returned (Normal label) s) as ED.
  { unfold dataLabel, pure. now rewrite L. }
  rewrite (bind_normal _ _ _ _ _ ED).
  assert (template (World := World) "Trigger activated: "
            (JsObject.orElse label (JStr "Unnamed trigger")) s
          = Returned (Normal (TextWith "Trigger activated: "
                                (JsObject.orElse label (JStr "Unnamed trigger")))) s)
    as ET.
  { unfold template, pure. now rewrite P. }
  rewrite (bind_normal _ _ _ _ _ ET).
  match goal with
  | |- context [bind (log info ?m None) _ ?st] =>
      destruct (log_run info m None st) as (t1 & w1 & E1)
  end.
  rewrite (bind_normal _ _ _ _ _ E1).
  match goal with
  | |- context [bind newDate _ ?st] => destruct (newDate_run st) as (t & w2 & E2)
  end.
  rewrite (bind_normal _ _ _ _ _ E2). unfold ret.
  eexists _, t, _. split; [reflexivity|].
  cbn [JsObject.get JsObject.spread].
  split.
  { rewrite lookup_set_other, lookup_set_other, lookup_set_same by discriminate.
    reflexivity. }
  split.
  { rewrite lookup_set_other, lookup_set_same by discriminate. reflexivity. }
  split.
  { now rewrite lookup_set_same. }
  intros k K1 K2 K3. now rewrite !lookup_set_other by assumption.
Qed.

(** The statement applied to the trigger of the samples and a context
    that already holds a [triggerType]. *)
Lemma executeTrigger_stamps_the_context_witness :
  exists r t s',
    executeTrigger (RT := Reference.runtime) Sample.nTrigger
      (JObj [("triggerType", JStr "old"); ("kept", JBool true)]) Sample.start
    = Returned (Normal r) s' /\
    JsObject.get r "triggeredAt" = JStr (toISOString (Runtime := Reference.runtime) t) /\
    JsObject.get r "triggerType" = JStr (Node.type Sample.nTrigger) /\
    JsObject.get r "triggerData" = Node.data Sample.nTrigger /\
    forall k,
      k <> "triggeredAt" -> k <> "triggerType" -> k <> "triggerData" ->
      JsObject.get r k
      = JsObject.get (JObj [("triggerType", JStr "old"); ("kept", JBool true)]) k.
Proof.
  apply (executeTrigger_stamps_the_context Reference.World Reference.runtime
           Sample.nTrigger [("triggerType", JStr "old"); ("kept", JBool true)]
           Sample.start (JStr "Start") (JStr "Start")); reflexivity.
Defined.


(* ================================================================= *)
(** * The entry of the run when several triggers stand in the graph *)

Section EntryFacts.

Context {World : Type} {RT : Runtime World}.
Variable this : AgentExecutor.








End EntryFacts.



